(** * evohome: the Honeywell evohome component and its hot-water platform

    A shallow embedding of [src/evohome.py] (component set-up and the
    [EvoDevice] base class) and of [src/water_heater/evohome.py] (the state
    tables and the [EvoDHW] entity), followed by the properties of the
    specification that concern them.

    Layout: [Py] is the fragment of the Python runtime the code relies on
    (exceptions, subscripting of JSON-shaped values, [timedelta]); [Evohome]
    and [WaterHeater] follow the two source files; [Vocabulary] names what
    the statements speak of and [Samples] holds concrete inputs; [PyFacts],
    [WaterHeaterSpec], [DeviceSpec] and [SetupSpec] hold the statements and
    their proofs.  [WaterHeaterPlatform] adds the platform's entry point and
    the remaining properties of the entity, [Frames] and [MoreSamples] the
    vocabulary and inputs for them; [SetupFurther], [DeviceFurther] and
    [WaterHeaterFurther] hold further properties of the code. *)

From stdpp Require Import base strings list gmap.
From Stdlib Require Import ZArith QArith Qround Lia.

#[local] Open Scope string_scope.
#[local] Open Scope Z_scope.
#[local] Set Warnings "-register-all".

(* ===================================================================== *)
(** ** The Python fragment *)
(* ===================================================================== *)

Module Py.

(** A subscript: [d['k']] or [l[0]]. *)
Inductive key :=
| KStr (s : string)
| KInt (i : Z).

(** The exceptions that the modelled code can meet.  [HTTPError] carries
    [err.response.status_code]. *)
Inductive exn :=
| HTTPError (status_code : Z)
| KeyError (k : key)
| IndexError
| TypeError
| NameError (name : string)
| NotImplementedError
| OtherError (what : string).

(** A computation either returns or raises. *)
Inductive result (A : Type) :=
| Ok (a : A)
| Raise (e : exn).
Arguments Ok {A} a.
Arguments Raise {A} e.

(** Sequencing: the first exception raised ends the computation.  With
    these instances [x ← r; k] reads as a Python statement sequence. *)
#[global] Instance result_ret : MRet result := fun A a => Ok a.
#[global] Instance result_bind : MBind result := fun A B k r =>
  match r with
  | Ok a => k a
  | Raise e => Raise e
  end.

Definition raises {A} (r : result A) : Prop := exists e, r = Raise e.

(** JSON-shaped Python values: what the vendor client hands back, and what
    the status trees are made of.  Objects are [dict]s with [str] keys; a
    [float] is kept as the number it denotes. *)
Inductive pyval :=
| PyNone
| PyBool (b : bool)
| PyInt (i : Z)
| PyFloat (q : Q)
| PyStr (s : string)
| PyList (l : list pyval)
| PyDict (d : gmap string pyval).

(** [v[k]] for a [str] subscript. A [dict] looks the key up; a [list] or a
    [str] wants an integer subscript, [None] and the numbers have none. *)
Definition getitem (v : pyval) (k : string) : result pyval :=
  match v with
  | PyDict d =>
      match d !! k with
      | Some x => Ok x
      | None => Raise (KeyError (KStr k))
      end
  | _ => Raise TypeError
  end.

(** [v[0]]: the first element of a [list], the first character of a [str],
    the value under the integer key [0] of a [dict] (never present in a
    JSON object). *)
Definition getfirst (v : pyval) : result pyval :=
  match v with
  | PyList l =>
      match l with
      | x :: _ => Ok x
      | [] => Raise IndexError
      end
  | PyStr s =>
      match s with
      | String c _ => Ok (PyStr (String c EmptyString))
      | EmptyString => Raise IndexError
      end
  | PyDict _ => Raise (KeyError (KInt 0))
  | _ => Raise TypeError
  end.

(** [v[k] = x] for a [str] subscript; the value returned is the object
    after the assignment.  Only a [dict] accepts it. *)
Definition setitem (v : pyval) (k : string) (x : pyval) : result pyval :=
  match v with
  | PyDict d => Ok (PyDict (<[k := x]> d))
  | _ => Raise TypeError
  end.

(** Aliasing.  [v[k]] and [v[0]] hand out the object that [v] holds, not a
    copy: once that object has been mutated into [x], [v] is seen as
    [with_item v k x], resp. [with_first v x].  Neither is an operation of
    the program, and neither can fail. *)
Definition with_item (v : pyval) (k : string) (x : pyval) : pyval :=
  match v with
  | PyDict d => PyDict (<[k := x]> d)
  | _ => v
  end.

Definition with_first (v : pyval) (x : pyval) : pyval :=
  match v with
  | PyList (_ :: tl) => PyList (x :: tl)
  | _ => v
  end.

(** ['k' in v]: key membership for a [dict], element membership for a
    [list], substring test for a [str]. *)
Definition is_substring (k s : string) : bool :=
  match String.index 0 k s with
  | Some _ => true
  | None => false
  end.

Definition is_str (k : string) (v : pyval) : bool :=
  match v with
  | PyStr s => bool_decide (s = k)
  | _ => false
  end.

Definition contains (k : string) (v : pyval) : result bool :=
  match v with
  | PyDict d => Ok (bool_decide (is_Some (d !! k)))
  | PyList l => Ok (existsb (is_str k) l)
  | PyStr s => Ok (is_substring k s)
  | _ => Raise TypeError
  end.

(** [dict(v)]: a shallow copy of a mapping; the copy shares the values.
    (The only call site passes a value that has already been subscripted
    with a [str], hence a [dict]; other iterables are not modelled.) *)
Definition dict_copy (v : pyval) : result pyval :=
  match v with
  | PyDict d => Ok (PyDict d)
  | _ => Raise TypeError
  end.

(** [tbl.get(k)] on a table with [str] keys and [str] values.  A key that
    is not hashable raises; any other absent key gives [None]. *)
Definition dict_get (tbl : gmap string string) (k : pyval)
  : result (option string) :=
  match k with
  | PyStr s => Ok (tbl !! s)
  | PyNone | PyBool _ | PyInt _ | PyFloat _ => Ok None
  | PyList _ | PyDict _ => Raise TypeError
  end.

(** *** [datetime.timedelta] and [datetime.datetime]

    A [timedelta] is a whole number of microseconds (Python normalises
    days, seconds and microseconds to exactly that); a naive [datetime] is
    a number of microseconds since a fixed origin. *)
Record timedelta := Timedelta { td_us : Z }.
Record datetime := Datetime { dt_us : Z }.

Definition us_per_second : Z := 1000000.

(** [timedelta(seconds=s)], [timedelta(minutes=m)]. *)
Definition td_seconds (s : Z) : timedelta := Timedelta (s * us_per_second).
Definition td_minutes (m : Z) : timedelta := td_seconds (60 * m).
(** [timedelta(seconds=s, milliseconds=ms)]. *)
Definition td_seconds_ms (s ms : Z) : timedelta :=
  Timedelta (s * us_per_second + ms * 1000).

(** [td.total_seconds()].  Python returns the binary64 nearest to this
    rational; the two coincide whenever the interval is a whole number of
    seconds or of half seconds (in absolute value below 2^52). *)
Definition total_seconds (td : timedelta) : Q :=
  td_us td # Z.to_pos us_per_second.

Definition td_ltb (a b : timedelta) : bool := td_us a <? td_us b.
Definition td_leb (a b : timedelta) : bool := td_us a <=? td_us b.

(** [max(a, b)]: the first argument unless the second is greater. *)
Definition td_max (a b : timedelta) : timedelta :=
  if td_ltb a b then b else a.

(** [td * n] *)
Definition td_mul (td : timedelta) (n : Z) : timedelta :=
  Timedelta (td_us td * n).

(** [dt + td] *)
Definition dt_add (dt : datetime) (td : timedelta) : datetime :=
  Datetime (dt_us dt + td_us td).

End Py.


(* ===================================================================== *)
(** ** src/evohome.py *)
(* ===================================================================== *)

Module Evohome.
Import Py.

(** *** Constants *)

(** From [homeassistant.const]. *)
Definition HTTP_BAD_REQUEST : Z := 400.
Definition HTTP_SERVICE_UNAVAILABLE : Z := 503.
Definition HTTP_TOO_MANY_REQUESTS : Z := 429.

Definition DOMAIN : string := "evohome".
Definition DATA_EVOHOME : string := "data_" +:+ DOMAIN.
Definition DISPATCHER_EVOHOME : string := "dispatcher_" +:+ DOMAIN.

Definition CONF_LOCATION_IDX : string := "location_idx".

Definition SCAN_INTERVAL_DEFAULT : timedelta := td_seconds 300.
Definition SCAN_INTERVAL_MINIMUM : timedelta := td_seconds 180.

Definition GWS : string := "gateways".
Definition TCS : string := "temperatureControlSystems".

(** Bit masks for dispatcher packets. *)
Definition EVO_PARENT : Z := 0x01.
Definition EVO_CHILD : Z := 0x02.

Definition REDACTED : pyval := PyStr "REDACTED".

(** The names bound at module level in [src/evohome.py], by its imports
    and its own definitions.  ([EvohomeClient] is imported inside [setup]
    and is local to it.) *)
Definition module_globals : list string :=
  [ "timedelta"; "logging"; "HTTPError"; "vol";
    "CONF_SCAN_INTERVAL"; "CONF_USERNAME"; "CONF_PASSWORD";
    "EVENT_HOMEASSISTANT_START";
    "HTTP_BAD_REQUEST"; "HTTP_SERVICE_UNAVAILABLE"; "HTTP_TOO_MANY_REQUESTS";
    "PRECISION_HALVES"; "TEMP_CELSIUS";
    "callback"; "cv"; "load_platform";
    "async_dispatcher_send"; "async_dispatcher_connect"; "Entity";
    "REQUIREMENTS"; "_LOGGER"; "DOMAIN"; "DATA_EVOHOME";
    "DISPATCHER_EVOHOME"; "CONF_LOCATION_IDX"; "CONF_DHW_TEMP";
    "DHW_TEMP_DEFAULT"; "DHW_TEMP_MAX"; "DHW_TEMP_MIN";
    "SCAN_INTERVAL_DEFAULT"; "SCAN_INTERVAL_MINIMUM"; "CONFIG_SCHEMA";
    "GWS"; "TCS"; "EVO_PARENT"; "EVO_CHILD"; "setup"; "EvoDevice" ].

(** Evaluating a global name: bound, or a [NameError]. *)
Definition resolve (globals : list string) (name : string) : result () :=
  if bool_decide (name ∈ globals) then Ok () else Raise (NameError name).

(** *** Data *)

(** [hass_config[DOMAIN]] once [CONFIG_SCHEMA] has validated it: every key
    is present, [location_idx] is a non-negative integer.  ([dhw_temp], a
    float that no function modelled here uses, is left out.) *)
Record conf := Conf {
  username : string;
  password : string;
  location_idx : nat;
  scan_interval : timedelta
}.

(** The constraint [vol.Range(min=SCAN_INTERVAL_MINIMUM)] of the schema. *)
Definition schema_accepts (c : conf) : bool :=
  td_leb SCAN_INTERVAL_MINIMUM (scan_interval c).

(** The vendor's client object, as far as the code looks into it. *)
Record vendor_client := Client { installation_info : list pyval }.

(** [hass.data[DATA_EVOHOME]].  [config] is the very object
    [client.installation_info[loc_idx]], so it is kept as that index:
    a mutation through either name is seen through the other one. *)
Record evo_data := EvoData {
  timers : gmap string datetime;
  params : conf;
  client : option vendor_client;
  status : option pyval;
  config : option nat
}.

Definition config_of (d : evo_data) : option pyval :=
  i ← config d; c ← client d; installation_info c !! i.

Inductive log_level := LERROR | LWARNING | LINFO | LDEBUG.
Inductive log_arg :=
| AStr (s : string)
| AInt (i : Z)
| AVal (v : pyval)
| ATimedelta (t : timedelta).
(** One call of a [_LOGGER] method: format string and arguments. *)
Record log_record := LogRecord {
  level : log_level;
  msg : string;
  args : list log_arg
}.

(** A dispatcher packet [{'sender': .., 'signal': .., 'to': ..}]. *)
Record packet := Packet { sender : string; signal : string; to : Z }.

(** The host, as far as this component touches it: its entry in
    [hass.data] ([setup] creates it, every other function runs after
    that), the log, the platforms asked for with [load_platform], and the
    packets that listeners registered for [EVENT_HOMEASSISTANT_START]
    will send. *)
Record hass := Hass {
  data : evo_data;
  log : list log_record;
  platforms : list string;
  on_start : list packet
}.

(** Statements run in a host, and may raise. *)
Definition M (A : Type) : Type := hass -> hass * result A.

#[global] Instance M_ret : MRet M := fun A a h => (h, Ok a).
#[global] Instance M_bind : MBind M := fun A B k m h =>
  match m h with
  | (h', Ok a) => k a h'
  | (h', Raise e) => (h', Raise e)
  end.

Definition lift {A} (r : result A) : M A := fun h => (h, r).
Definition raise {A} (e : exn) : M A := fun h => (h, Raise e).
Definition get_data : M evo_data := fun h => (h, Ok (data h)).
Definition modify_data (f : evo_data -> evo_data) : M () := fun h =>
  (Hass (f (data h)) (log h) (platforms h) (on_start h), Ok ()).
Definition logger (lvl : log_level) (m : string) (a : list log_arg) : M () :=
  fun h =>
    (Hass (data h) (log h ++ [LogRecord lvl m a]) (platforms h) (on_start h),
     Ok ()).
Definition load_platform (p : string) : M () := fun h =>
  (Hass (data h) (log h) (platforms h ++ [p]) (on_start h), Ok ()).
Definition bus_listen_start (p : packet) : M () := fun h =>
  (Hass (data h) (log h) (platforms h) (on_start h ++ [p]), Ok ()).

(** Field updates of [evo_data]. *)
Definition set_timers (f : gmap string datetime -> gmap string datetime)
    (d : evo_data) : evo_data :=
  EvoData (f (timers d)) (params d) (client d) (status d) (config d).
Definition set_params (f : conf -> conf) (d : evo_data) : evo_data :=
  EvoData (timers d) (f (params d)) (client d) (status d) (config d).
Definition set_client (c : option vendor_client) (d : evo_data) : evo_data :=
  EvoData (timers d) (params d) c (status d) (config d).
Definition set_status (s : option pyval) (d : evo_data) : evo_data :=
  EvoData (timers d) (params d) (client d) s (config d).
Definition set_config (i : option nat) (d : evo_data) : evo_data :=
  EvoData (timers d) (params d) (client d) (status d) i.

(** [d[k] if present else KeyError(k)] for a key of [evo_data] itself. *)
Definition present {A} (k : string) (o : option A) : result A :=
  match o with
  | Some a => Ok a
  | None => Raise (KeyError (KStr k))
  end.

(** *** [setup] *)

(** [timedelta(minutes=(scan_interval.total_seconds() + 59) // 60)] *)
Definition round_scan_interval (si : timedelta) : timedelta :=
  td_minutes (Qfloor ((total_seconds si + 59) / 60)%Q).

Definition msg_bad_request : string :=
  "setup(): Failed to connect with the vendor's web servers. " +:+
  "Check your username (%s), and password are correct." +:+
  "Unable to continue. Resolve any errors and restart HA.".
Definition msg_service_unavailable : string :=
  "setup(): Failed to connect with the vendor's web servers. " +:+
  "The server is not contactable. Unable to continue. " +:+
  "Resolve any errors and restart HA.".
Definition msg_too_many_requests : string :=
  "setup(): Failed to connect with the vendor's web servers. " +:+
  "You have exceeded the api rate limit. Unable to continue. " +:+
  "Wait a while (say 10 minutes) and restart HA.".
Definition msg_location_idx : string :=
  "setup(): Parameter '%s'=%s, is outside its range (0-%s)".
Definition msg_config : string := "setup(): evo_data['config']=%s".

(** The [except HTTPError as err] clause around the construction of the
    client: a diagnostic and [return False] for three status codes, a
    bare [raise] for every other one.  An exception that is not an
    [HTTPError] is not caught at all. *)
Definition except_HTTPError (err : exn) : M bool :=
  match err with
  | HTTPError code =>
      if code =? HTTP_BAD_REQUEST then
        d ← get_data;
        logger LERROR msg_bad_request [AStr (username (params d))];;
        mret false
      else if code =? HTTP_SERVICE_UNAVAILABLE then
        logger LERROR msg_service_unavailable [];;
        mret false
      else if code =? HTTP_TOO_MANY_REQUESTS then
        logger LERROR msg_too_many_requests [];;
        mret false
      else
        raise err
  | _ => raise err
  end.

(** The [finally] clause: it runs on every way out of the [try]. *)
Definition redact_credentials (c : conf) : conf :=
  Conf "REDACTED" "REDACTED" (location_idx c) (scan_interval c).

(** [o[k1][k2] = x]: the inner object is mutated in place, so the outer
    one shows the change.  The value is [o] after the statement. *)
Definition assign2 (k1 k2 : string) (x : pyval) (o : pyval) : result pyval :=
  inner ← getitem o k1;
  inner' ← setitem inner k2 x;
  mret (with_item o k1 inner').

(** [loc[GWS][0]['gatewayInfo'] = x] *)
Definition assign_gateway_info (x : pyval) (loc : pyval) : result pyval :=
  gws ← getitem loc GWS;
  gw ← getfirst gws;
  gw' ← setitem gw "gatewayInfo" x;
  mret (with_item loc GWS (with_first gws gw')).

(** The body of the redaction loop, statement by statement. *)
Definition redact_body : list (pyval -> result pyval) :=
  [ assign2 "locationInfo" "locationId" REDACTED;
    assign2 "locationInfo" "locationOwner" REDACTED;
    assign2 "locationInfo" "streetAddress" REDACTED;
    assign2 "locationInfo" "city" REDACTED;
    assign_gateway_info REDACTED ].

(** Statements that mutate one object, in sequence: the first one that
    raises stops the sequence and leaves the mutations made so far. *)
Fixpoint run_on (body : list (pyval -> result pyval)) (o : pyval)
  : pyval * result () :=
  match body with
  | [] => (o, Ok ())
  | stmt :: rest =>
      match stmt o with
      | Ok o' => run_on rest o'
      | Raise e => (o, Raise e)
      end
  end.

(** [for o in l: body]: the objects of the list are mutated in place, in
    order, until the body raises. *)
Fixpoint for_each (body : pyval -> pyval * result ()) (l : list pyval)
  : list pyval * result () :=
  match l with
  | [] => ([], Ok ())
  | o :: rest =>
      match body o with
      | (o', Ok _) =>
          let (rest', r) := for_each body rest in (o' :: rest', r)
      | (o', Raise e) => (o' :: rest, Raise e)
      end
  end.

(** The redaction loop on [client.installation_info]; the client is the
    one already stored under [evo_data['client']]. *)
Definition redact_installation_info (cl : vendor_client) : M () :=
  let (info', r) := for_each (run_on redact_body) (installation_info cl) in
  modify_data (set_client (Some (Client info')));;
  lift r.

(** The packet that [_first_update] sends once the host has started. *)
Definition first_update_packet : packet :=
  Packet "setup()" "refresh" EVO_PARENT.

(** The block under [if _LOGGER.isEnabledFor(logging.DEBUG)].  [tmp_loc]
    is a copy of the config that shares its ['locationInfo'], so the
    assignment to the postcode lands in the config itself, which is
    [client.installation_info[loc_idx]].  The value is the config after it. *)
Definition debug_dump (loc_idx : nat) (cfg : pyval) : M pyval :=
  tmp_loc ← lift (dict_copy cfg);
  tmp_loc' ← lift (assign2 "locationInfo" "postcode" REDACTED tmp_loc);
  modify_data (fun d =>
    set_client
      ((fun cl => Client (<[loc_idx := tmp_loc']> (installation_info cl)))
         <$> client d) d);;
  logger LDEBUG msg_config [AVal tmp_loc'];;
  mret tmp_loc'.

(** The two [load_platform] calls, the second one under
    [if 'dhw' in evo_data['config'][GWS][0][TCS][0]]. *)
Definition load_platforms (cfg : pyval) : M () :=
  load_platform "climate";;
  gws ← lift (getitem cfg GWS);
  gw ← lift (getfirst gws);
  tcss ← lift (getitem gw TCS);
  tcs ← lift (getfirst tcss);
  has_dhw ← lift (contains "dhw" tcs);
  if has_dhw : bool then load_platform "water_heater" else mret ().

(** What follows the [try] statement when the client was created. *)
Definition setup_installation (cl : vendor_client) (debug_enabled : bool)
  : M bool :=
  modify_data (fun d => set_status (Some (PyDict ∅)) (set_client (Some cl) d));;
  redact_installation_info cl;;
  d ← get_data;
  (* the local [client] is the object stored under evo_data['client'] *)
  cl' ← lift (present "client" (client d));
  let loc_idx := location_idx (params d) in
  match installation_info cl' !! loc_idx with
  | None =>
      (* except IndexError *)
      logger LWARNING msg_location_idx
        [AStr CONF_LOCATION_IDX; AInt (Z.of_nat loc_idx);
         AInt (Z.of_nat (length (installation_info cl')) - 1)];;
      mret false
  | Some cfg =>
      modify_data (set_config (Some loc_idx));;
      cfg' ← (if debug_enabled then debug_dump loc_idx cfg else mret cfg);
      load_platforms cfg';;
      bus_listen_start first_update_packet;;
      mret true
  end.

(** [setup(hass, hass_config)].  [EvohomeClient] is the vendor's
    constructor: it authenticates and fetches the installations, or
    raises. *)
Definition setup (EvohomeClient : string -> string -> result vendor_client)
    (debug_enabled : bool) (hass_config : conf) : M bool :=
  modify_data (fun _ => EvoData ∅ hass_config None None None);;
  d ← get_data;
  (* a local that nothing reads afterwards *)
  let scan_interval := round_scan_interval (scan_interval (params d)) in
  match EvohomeClient (username (params d)) (password (params d)) with
  | Raise err =>
      fun h =>
        let (h', r) := except_HTTPError err h in
        ((modify_data (set_params redact_credentials) h').1, r)
  | Ok cl =>
      modify_data (set_params redact_credentials);;
      setup_installation cl debug_enabled
  end.

(** *** [EvoDevice] *)

(** The attributes of an entity.  [_params] and [_timers] are references
    to the dictionaries of [hass.data[DATA_EVOHOME]], so the methods that
    use them read and write the host's entry. *)
Record device := Device {
  _id : string;
  _name : string;
  _icon : string;
  _type : Z;
  _status : pyval;
  _available : bool;
  _operation_list : list string;
  _supported_features : Z
}.

(** What a dispatcher callback asks of the host. *)
Inductive request :=
| ScheduleUpdate (force_refresh : bool).

(** [_connect(self, packet)]: [packet['to'] & self._type] is an integer,
    true when it is not zero; [and] evaluates the comparison only then. *)
Definition _connect (self : device) (pkt : packet) : list request :=
  if bool_decide (Z.land (to pkt) (_type self) ≠ 0)
     && bool_decide (signal pkt = "refresh")
  then [ScheduleUpdate true]
  else [].

(** [async_dispatcher_send(hass, DISPATCHER_EVOHOME, pkt)] with the
    devices connected to that signal: each one receives the packet. *)
Definition dispatch (devices : list device) (pkt : packet)
  : list (device * list request) :=
  map (fun dev => (dev, _connect dev pkt)) devices.

Definition msg_rate_limit : string :=
  "API rate limit appears to have been exceeded. " +:+
  "Suspending polling for %s seconds.".

(** [_handle_requests_exceptions(self, err)] in a module whose global
    names are [globals]; [status_code] is [err.response.status_code] and
    [now] is what the clock reads.  The right-hand side of the assignment
    to [self._timers['statusUpdated']] evaluates the global name
    [datetime] first. *)
Definition handle_requests_exceptions_in (globals : list string)
    (now : datetime) (self : device) (status_code : Z) : M () :=
  if status_code =? HTTP_TOO_MANY_REQUESTS then
    d ← get_data;
    let scan_interval := scan_interval (params d) in
    let temp_interval :=
      td_mul (td_max scan_interval SCAN_INTERVAL_DEFAULT) 3 in
    logger LWARNING msg_rate_limit [ATimedelta temp_interval];;
    lift (resolve globals "datetime");;
    modify_data
      (set_timers (<["statusUpdated" := dt_add now temp_interval]>))
  else
    raise (HTTPError status_code).

(** The method as it stands in [src/evohome.py]. *)
Definition _handle_requests_exceptions
  : datetime -> device -> Z -> M () :=
  handle_requests_exceptions_in module_globals.

Definition name (self : device) : string := _name self.
Definition icon (self : device) : string := _icon self.
Definition device_state_attributes (self : device) : pyval :=
  PyDict {[ "status" := _status self ]}.
Definition should_poll (self : device) : bool :=
  bool_decide (_type self = EVO_PARENT).
Definition available (self : device) : bool := _available self.
Definition supported_features (self : device) : Z :=
  _supported_features self.
Definition operation_list (self : device) : list string :=
  _operation_list self.

End Evohome.

(* ===================================================================== *)
(** ** src/water_heater/evohome.py *)
(* ===================================================================== *)

Module WaterHeater.
Import Py Evohome.

(** From [homeassistant.components.climate]. *)
Definition STATE_AUTO : string := "auto".
Definition STATE_ECO : string := "eco".
Definition STATE_MANUAL : string := "manual".
Definition STATE_OFF : string := "off".
(** From [homeassistant.components.water_heater]. *)
Definition SUPPORT_OPERATION_MODE : Z := 2.

(** The controller's operating modes. *)
Definition EVO_RESET : string := "AutoWithReset".
Definition EVO_AUTO : string := "Auto".
Definition EVO_AUTOECO : string := "AutoWithEco".
Definition EVO_AWAY : string := "Away".
Definition EVO_DAYOFF : string := "DayOff".
Definition EVO_CUSTOM : string := "Custom".
Definition EVO_HEATOFF : string := "HeatingOff".

(** The zones' operating modes. *)
Definition EVO_FOLLOW : string := "FollowSchedule".
Definition EVO_TEMPOVER : string := "TemporaryOverride".
Definition EVO_PERMOVER : string := "PermanentOverride".

(** The dictionary displays, in the order they are written; a [dict]
    keeps that order, which is the order of [list(d)]. *)
Definition TCS_STATE_TO_HA_items : list (string * string) :=
  [ (EVO_RESET, STATE_AUTO);
    (EVO_AUTO, STATE_AUTO);
    (EVO_AUTOECO, STATE_ECO);
    (EVO_AWAY, STATE_AUTO);
    (EVO_DAYOFF, STATE_AUTO);
    (EVO_CUSTOM, STATE_AUTO);
    (EVO_HEATOFF, STATE_OFF) ].
Definition HA_STATE_TO_TCS_items : list (string * string) :=
  [ (STATE_AUTO, EVO_AUTO);
    (STATE_ECO, EVO_AUTOECO);
    (STATE_OFF, EVO_HEATOFF) ].
Definition ZONE_STATE_TO_HA_items : list (string * string) :=
  [ (EVO_FOLLOW, STATE_AUTO);
    (EVO_TEMPOVER, STATE_MANUAL);
    (EVO_PERMOVER, STATE_MANUAL) ].
Definition HA_STATE_TO_ZONE_items : list (string * string) :=
  [ (STATE_AUTO, EVO_FOLLOW);
    (STATE_MANUAL, EVO_PERMOVER) ].

Definition TCS_STATE_TO_HA : gmap string string :=
  list_to_map TCS_STATE_TO_HA_items.
Definition HA_STATE_TO_TCS : gmap string string :=
  list_to_map HA_STATE_TO_TCS_items.
Definition TCS_OP_LIST : list string := HA_STATE_TO_TCS_items.*1.

Definition ZONE_STATE_TO_HA : gmap string string :=
  list_to_map ZONE_STATE_TO_HA_items.
Definition HA_STATE_TO_ZONE : gmap string string :=
  list_to_map HA_STATE_TO_ZONE_items.
Definition ZONE_OP_LIST : list string := HA_STATE_TO_ZONE_items.*1.

(** [EvoDHW.__init__]: the base class sets [_status = {}] and
    [_available = False]. *)
Definition EvoDHW (zoneId : string) : device :=
  Device zoneId "~DHW controller" "mdi:thermometer-lines" EVO_CHILD
         (PyDict ∅) false ZONE_OP_LIST SUPPORT_OPERATION_MODE.

Definition msg_current_operation : string := "current_operation(%s) = %s".

Definition arg_of (o : option string) : log_arg :=
  match o with
  | Some s => AStr s
  | None => AVal PyNone
  end.

(** [evo_data['status']['systemModeStatus']['mode']] *)
Definition system_mode_of (d : evo_data) : result pyval :=
  st ← present "status" (status d);
  sms ← getitem st "systemModeStatus";
  getitem sms "mode".

(** [self._status['stateStatus']['mode']] *)
Definition setpoint_mode_of (self : device) : result pyval :=
  ss ← getitem (_status self) "stateStatus";
  getitem ss "mode".

(** The property [current_operation]: [None] is Python's [None]. *)
Definition current_operation (self : device) : M (option string) :=
  evo_data ← get_data;
  system_mode ← lift (system_mode_of evo_data);
  setpoint_mode ← lift (setpoint_mode_of self);
  current_operation ←
    (if is_str EVO_FOLLOW setpoint_mode then
       (* then inherit state from the controller *)
       if is_str EVO_RESET system_mode then
         lift (dict_get TCS_STATE_TO_HA (PyStr EVO_AUTO))
       else
         lift (dict_get TCS_STATE_TO_HA system_mode)
     else
       lift (dict_get ZONE_STATE_TO_HA setpoint_mode));
  logger LWARNING msg_current_operation
    [AStr (_id self); arg_of current_operation];;
  mret current_operation.

(** [update(self)]: the device takes its slice of the shared status; no
    request is made. *)
Definition update (self : device) : M device :=
  evo_data ← get_data;
  st ← lift (present "status" (status evo_data));
  dhw ← lift (getitem st "dhw");
  mret (Device (_id self) (_name self) (_icon self) (_type self)
               dhw true (_operation_list self) (_supported_features self)).

Definition set_temperature (self : device) : M () :=
  raise NotImplementedError.
Definition set_operation_mode (self : device) (operation_mode : string)
  : M () :=
  raise NotImplementedError.

End WaterHeater.


(* ===================================================================== *)
(** ** Vocabulary of the specification *)
(* ===================================================================== *)

Module Vocabulary.
Import Py Evohome WaterHeater.

(** The controller's modes and the zones' modes, as the source lists them. *)
Definition controller_modes : list string :=
  [ EVO_RESET; EVO_AUTO; EVO_AUTOECO; EVO_AWAY; EVO_DAYOFF; EVO_CUSTOM;
    EVO_HEATOFF ].
Definition zone_modes : list string :=
  [ EVO_FOLLOW; EVO_TEMPOVER; EVO_PERMOVER ].

(** What a function returns, whatever it did to the host. *)
Definition outcome {A} (m : M A) (h : hass) : result A := (m h).2.
Definition host_after {A} (m : M A) (h : hass) : hass := (m h).1.

(** [o[k1][k2]] *)
Definition get2 (o : pyval) (k1 k2 : string) : result pyval :=
  inner ← getitem o k1; getitem inner k2.

(** [loc[GWS][0]['gatewayInfo']] *)
Definition gateway_info_of (loc : pyval) : result pyval :=
  gws ← getitem loc GWS; gw ← getfirst gws; getitem gw "gatewayInfo".

(** A location none of whose redacted fields is readable any more. *)
Definition redacted_location (loc : pyval) : Prop :=
  get2 loc "locationInfo" "locationId" = Ok REDACTED /\
  get2 loc "locationInfo" "locationOwner" = Ok REDACTED /\
  get2 loc "locationInfo" "streetAddress" = Ok REDACTED /\
  get2 loc "locationInfo" "city" = Ok REDACTED /\
  gateway_info_of loc = Ok REDACTED.

(** The shape of a location in the data model: an object that has a
    [locationInfo] object and at least one gateway, itself an object. *)
Definition has_info_and_gateway (loc : pyval) : bool :=
  match loc with
  | PyDict d =>
      match d !! "locationInfo", d !! GWS with
      | Some (PyDict _), Some (PyList (PyDict _ :: _)) => true
      | _, _ => false
      end
  | _ => false
  end.

(** The host once [setup] has made its entry from the configuration. *)
Definition entered (cfg : conf) (h : hass) : hass :=
  Hass (EvoData ∅ cfg None None None) (log h) (platforms h) (on_start h).

(** Statements that leave the configuration parameters alone. *)
Definition keeps_params {A} (m : M A) : Prop :=
  forall h, params (data (m h).1) = params (data h).

(** The device receives a refresh. *)
Definition refreshed (self : device) (pkt : packet) : Prop :=
  _connect self pkt = [ScheduleUpdate true].

End Vocabulary.

(* ===================================================================== *)
(** ** Concrete inputs *)
(* ===================================================================== *)

Module Samples.
Import Py Evohome WaterHeater Vocabulary.

Definition obj (items : list (string * pyval)) : pyval :=
  PyDict (list_to_map items).

Definition a_conf : conf := Conf "alice@example.org" "hunter2" 0 (td_seconds 300).
Definition far_conf : conf := Conf "alice@example.org" "hunter2" 5 (td_seconds 300).

Definition a_location : pyval :=
  obj [ ("locationInfo",
          obj [ ("locationId", PyStr "2738909"); ("name", PyStr "Home");
                ("locationOwner", obj [("username", PyStr "alice@example.org")]);
                ("streetAddress", PyStr "1 High Street");
                ("city", PyStr "London"); ("postcode", PyStr "N1 9GU") ]);
        ("gateways",
          PyList
            [ obj [ ("gatewayInfo", obj [("mac", PyStr "00D02DEE4E56")]);
                    ("temperatureControlSystems",
                      PyList [ obj [ ("systemId", PyStr "3432522");
                                     ("zones", PyList []);
                                     ("dhw", obj [("dhwId", PyStr "3933910")]) ] ]) ] ]) ].

Definition a_client : vendor_client := Client [a_location].

(** A location to which no gateway is attached. *)
Definition a_location_without_gateway : pyval :=
  obj [ ("locationInfo",
          obj [ ("locationId", PyStr "2738910"); ("name", PyStr "Shed");
                ("city", PyStr "London") ]);
        ("gateways", PyList []) ].
Definition vendor_without_gateway (u p : string) : result vendor_client :=
  Ok (Client [a_location_without_gateway]).

Definition vendor_ok (u p : string) : result vendor_client := Ok a_client.
Definition vendor_fails (code : Z) (u p : string) : result vendor_client :=
  Raise (HTTPError code).

(** A host in which nothing has run yet. *)
Definition fresh_host : hass :=
  Hass (EvoData ∅ (Conf "" "" 0 (Timedelta 0)) None None None) [] [] [].

(** A host whose controller reports the system mode [m]. *)
Definition host_in_mode (m : string) : hass :=
  Hass (EvoData ∅ (redact_credentials a_conf) (Some a_client)
          (Some (obj [("systemModeStatus", obj [("mode", PyStr m)])]))
          (Some 0%nat))
       [] ["climate"; "water_heater"] [first_update_packet].

(** The hot-water device once it has read the mode [zm] from its status. *)
Definition dhw_in_mode (zm : string) : device :=
  Device "3933910" "~DHW controller" "mdi:thermometer-lines" EVO_CHILD
    (obj [("stateStatus", obj [("mode", PyStr zm); ("state", PyStr "On")])])
    true ZONE_OP_LIST SUPPORT_OPERATION_MODE.

Definition a_controller : device :=
  Device "3432522" "~Home" "mdi:thermostat" EVO_PARENT (PyDict ∅) true
    TCS_OP_LIST 0.

End Samples.

(* ===================================================================== *)
(** ** src/water_heater/evohome.py: the platform and the other properties *)
(* ===================================================================== *)

Module WaterHeaterPlatform.
Import Py Evohome WaterHeater.

(** The object tree that the vendor's client builds from the installation,
    as far as [async_setup_platform] walks it:
    [client.locations[i]._gateways[0]._control_systems[0].hotwater]. *)
Record HotWater := HotWaterObj { zoneId : string; zone_type : string }.
Record ControlSystem := ControlSystemObj {
  systemId : string;
  modelType : string;
  location_name : string;
  hotwater : option HotWater   (* [None], or the hot-water object *)
}.
Record Gateway := GatewayObj { _control_systems : list ControlSystem }.
Record Location := LocationObj { _gateways : list Gateway }.

(** [l[i]] on a list of objects. *)
Definition item {A} (l : list A) (i : nat) : result A :=
  match l !! i with
  | Some x => Ok x
  | None => Raise IndexError
  end.

(** [evo_data['config'][GWS][0][TCS][0]] *)
Definition config_tcs_of (d : evo_data) : result pyval :=
  cfg ← present "config" (config_of d);
  gws ← getitem cfg GWS;
  gw ← getfirst gws;
  tcss ← getitem gw TCS;
  getfirst tcss.

(** An [EvoDHW] instance: the attributes of every device, and [_config]. *)
Record dhw_entity := DhwEntity { entity : device; _config : pyval }.

(** [EvoDHW.__init__(self, evo_data, client, obj_ref)].  The last statement
    that can raise is the read of [self._config]. *)
Definition EvoDHW_init (obj_ref : HotWater) : M dhw_entity :=
  evo_data ← get_data;
  tcs ← lift (config_tcs_of evo_data);
  cfg ← lift (getitem tcs "dhw");
  mret (DhwEntity (EvoDHW (zoneId obj_ref)) cfg).

Definition msg_using_controller : string :=
  "setup_platform(): Using Controller, id=%s [%s], " +:+
  "name=%s (location_idx=%s)".
Definition msg_found_dhw : string :=
  "setup(): Found DHW device, id: %s, type: %s".

(** [async_setup_platform(hass, hass_config, async_add_entities)].
    [locations] is the attribute of that name of the client; the value is
    what [async_add_entities] is called with: the entities and
    [update_before_add].  [dhw] is a local name that only the branch under
    [if tcs_obj_ref.hotwater] binds; an unbound local raises
    [UnboundLocalError], which is a [NameError]. *)
Definition async_setup_platform (locations : vendor_client -> list Location)
  : M (list dhw_entity * bool) :=
  evo_data ← get_data;
  client ← lift (present "client" (client evo_data));
  let loc_idx := location_idx (params evo_data) in
  loc ← lift (item (locations client) loc_idx);
  gw ← lift (item (_gateways loc) 0);
  tcs_obj_ref ← lift (item (_control_systems gw) 0);
  logger LDEBUG msg_using_controller
    [AStr (systemId tcs_obj_ref); AStr (modelType tcs_obj_ref);
     AStr (location_name tcs_obj_ref); AInt (Z.of_nat loc_idx)];;
  dhw ← match hotwater tcs_obj_ref with
        | Some hw =>
            logger LINFO msg_found_dhw [AStr (zoneId hw); AStr (zone_type hw)];;
            dhw ← EvoDHW_init hw;
            mret (Some dhw)
        | None => mret None
        end;
  dhw ← lift (match dhw with
              | Some dhw => Ok dhw
              | None => Raise (NameError "dhw")
              end);
  mret ([dhw], false).

Definition msg_state : string := "state(%s) = %s".
Definition msg_temperature : string := "temperature(%s) = %s".

(** The property [state]: the arguments of the log call are evaluated
    first. *)
Definition state (self : device) : M pyval :=
  ss ← lift (getitem (_status self) "stateStatus");
  v ← lift (getitem ss "state");
  logger LWARNING msg_state [AStr (_id self); AVal v];;
  ss ← lift (getitem (_status self) "stateStatus");
  lift (getitem ss "state").

(** The property [temperature]. *)
Definition temperature (self : device) : M pyval :=
  ts ← lift (getitem (_status self) "temperatureStatus");
  temp ← lift (getitem ts "temperature");
  logger LWARNING msg_temperature [AStr (_id self); AVal temp];;
  mret temp.

End WaterHeaterPlatform.

(* ===================================================================== *)
(** ** Further vocabulary and inputs *)
(* ===================================================================== *)

Module Frames.
Import Py Evohome WaterHeater Vocabulary.

(** A statement that leaves one aspect [f] of the host as it was, however
    it ends. *)
Definition preserves {X A} (f : hass -> X) (m : M A) : Prop :=
  forall h, f (m h).1 = f h.

(** A statement that leaves [f] as it was unless its outcome is [ok]. *)
Definition unless {X A} (ok : result A -> Prop) (f : hass -> X) (m : M A)
  : Prop :=
  forall h, ok (m h).2 \/ f (m h).1 = f h.

(** The keys of ['locationInfo'] that the loop of [setup] assigns. *)
Definition redacted_keys : list string :=
  [ "locationId"; "locationOwner"; "streetAddress"; "city" ].

(** [loc[GWS][0][TCS][0]] *)
Definition tcs_of (loc : pyval) : result pyval :=
  gws ← getitem loc GWS;
  gw ← getfirst gws;
  tcss ← getitem gw TCS;
  getfirst tcss.

(** [loc[GWS][0][k]] *)
Definition gateway_item (loc : pyval) (k : string) : result pyval :=
  gws ← getitem loc GWS; gw ← getfirst gws; getitem gw k.

(** The gateways of a location after the first one. *)
Definition other_gateways (loc : pyval) : list pyval :=
  match getitem loc GWS with
  | Ok (PyList (_ :: rest)) => rest
  | _ => []
  end.

(** [loc'] is [loc] wherever the redaction loop does not assign. *)
Definition same_elsewhere (loc loc' : pyval) : Prop :=
  (forall k, k ≠ "locationInfo" -> k ≠ GWS -> getitem loc' k = getitem loc k)
  /\ (forall k, k ∉ redacted_keys ->
                get2 loc' "locationInfo" k = get2 loc "locationInfo" k)
  /\ (forall k, k ≠ "gatewayInfo" -> gateway_item loc' k = gateway_item loc k)
  /\ other_gateways loc' = other_gateways loc.

(** The states a device can display. *)
Definition displayed_states : list string :=
  [ STATE_AUTO; STATE_ECO; STATE_OFF; STATE_MANUAL ].

End Frames.

Module MoreSamples.
Import Py Evohome WaterHeater WaterHeaterPlatform Vocabulary Samples Frames.

(** A second location, with a controller that has no hot water. *)
Definition another_location : pyval :=
  obj [ ("locationInfo",
          obj [ ("locationId", PyStr "2738911"); ("name", PyStr "Office");
                ("locationOwner", obj [("username", PyStr "alice@example.org")]);
                ("streetAddress", PyStr "2 Low Road");
                ("city", PyStr "Leeds"); ("postcode", PyStr "LS1 4AP") ]);
        ("gateways",
          PyList
            [ obj [ ("gatewayInfo", obj [("mac", PyStr "00D02DEE4E57")]);
                    ("temperatureControlSystems",
                      PyList [ obj [ ("systemId", PyStr "3432523");
                                     ("zones", PyList []) ] ]) ] ]) ].

Definition vendor_two (u p : string) : result vendor_client :=
  Ok (Client [a_location; another_location]).
Definition second_conf : conf :=
  Conf "alice@example.org" "hunter2" 1 (td_seconds 300).

(** The client read a gateway-less location after a sound one. *)
Definition vendor_second_without_gateway (u p : string) : result vendor_client :=
  Ok (Client [a_location; a_location_without_gateway; another_location]).

(** The host after a [setup] that went well. *)
Definition host_after_setup : hass :=
  host_after (setup vendor_ok false a_conf) fresh_host.

(** The shared status, with the slice of the hot-water device. *)
Definition a_status (sm zm : string) : pyval :=
  obj [ ("systemModeStatus", obj [("mode", PyStr sm); ("isPermanent", PyBool true)]);
        ("dhw",
          obj [ ("dhwId", PyStr "3933910");
                ("stateStatus", obj [("mode", PyStr zm); ("state", PyStr "On")]);
                ("temperatureStatus",
                  obj [("temperature", PyFloat 51.5); ("isAvailable", PyBool true)]) ]) ].

Definition host_with_status (sm zm : string) : hass :=
  Hass (set_status (Some (a_status sm zm)) (data host_after_setup))
       (log host_after_setup) (platforms host_after_setup)
       (on_start host_after_setup).

(** The object tree of [a_client]. *)
Definition a_hot_water : HotWater := HotWaterObj "3933910" "DomesticHotWater".
Definition tree_with (hw : option HotWater) (cl : vendor_client)
  : list Location :=
  [ LocationObj [ GatewayObj [ ControlSystemObj "3432522" "EvoTouch" "Home" hw ] ] ].

End MoreSamples.

(* ===================================================================== *)
(** ** Facts about the Python fragment *)
(* ===================================================================== *)

Module PyFacts.
Import Py.

Lemma bind_Ok {A B} (r : result A) (k : A -> result B) (b : B) :
  r ≫= k = Ok b -> exists a, r = Ok a /\ k a = Ok b.
Proof. destruct r as [a|e]; [eauto | discriminate]. Qed.

Lemma getitem_Ok v k x :
  getitem v k = Ok x -> exists d, v = PyDict d /\ d !! k = Some x.
Proof.
  destruct v as [| | | | | |d]; try discriminate. simpl.
  destruct (d !! k) eqn:E; [|discriminate]. intros [= ->]. eauto.
Qed.

Lemma setitem_Ok v k x v' :
  setitem v k x = Ok v' -> exists d, v = PyDict d /\ v' = PyDict (<[k := x]> d).
Proof. destruct v; try discriminate. intros [= <-]. eauto. Qed.

Lemma getitem_insert_eq d k x : getitem (PyDict (<[k := x]> d)) k = Ok x.
Proof. simpl. by rewrite lookup_insert_eq. Qed.

Lemma getitem_insert_ne d k k' x :
  k ≠ k' -> getitem (PyDict (<[k := x]> d)) k' = getitem (PyDict d) k'.
Proof. intros. simpl. by rewrite lookup_insert_ne. Qed.

Lemma dict_get_str tbl s : dict_get tbl (PyStr s) = Ok (tbl !! s).
Proof. reflexivity. Qed.

Lemma is_str_true k v : is_str k v = true <-> v = PyStr k.
Proof.
  destruct v; simpl; try (split; [discriminate | congruence]).
  rewrite bool_decide_eq_true. split; congruence.
Qed.

Lemma is_str_PyStr k s : is_str k (PyStr s) = bool_decide (s = k).
Proof. reflexivity. Qed.

End PyFacts.

(* ===================================================================== *)
(** ** The state tables and the displayed operation *)
(* ===================================================================== *)

Module WaterHeaterSpec.
Import Py Evohome WaterHeater Vocabulary Samples PyFacts.

(** Running [current_operation] when both modes can be read: the tables
    decide, and the host only gains a log record. *)
Lemma current_operation_unfold self h sm zm :
  system_mode_of (data h) = Ok sm ->
  setpoint_mode_of self = Ok zm ->
  outcome (current_operation self) h =
    (if is_str EVO_FOLLOW zm then
       if is_str EVO_RESET sm then dict_get TCS_STATE_TO_HA (PyStr EVO_AUTO)
       else dict_get TCS_STATE_TO_HA sm
     else dict_get ZONE_STATE_TO_HA zm).
Proof.
  intros Hs Hz. unfold outcome, current_operation.
  unfold mbind, M_bind, get_data, lift. rewrite Hs, Hz.
  destruct (is_str EVO_FOLLOW zm); [destruct (is_str EVO_RESET sm)|];
    match goal with |- context [dict_get ?t ?k] => destruct (dict_get t k) end;
    reflexivity.
Qed.

Lemma table_lookup_inv (items : list (string * string)) k v :
  (list_to_map items : gmap string string) !! k = Some v -> (k, v) ∈ items.
Proof. apply elem_of_list_to_map_2. Qed.

(** No key is written twice in a table, so the order of the items does not
    decide any lookup. *)
Lemma tables_have_no_repeated_key :
  NoDup (TCS_STATE_TO_HA_items.*1) /\ NoDup (HA_STATE_TO_TCS_items.*1) /\
  NoDup (ZONE_STATE_TO_HA_items.*1) /\ NoDup (HA_STATE_TO_ZONE_items.*1).
Proof. repeat split; apply (bool_decide_unpack _); vm_compute; exact I. Qed.

(** C2. The table from controller modes to displayed states gives, through
    the [get] that [current_operation] uses, [auto] for AutoWithReset, Auto,
    Away, DayOff and Custom, [eco] for AutoWithEco and [off] for HeatingOff;
    so it is defined, and not [None], on each of the seven modes. *)
Theorem TCS_STATE_TO_HA_total :
  dict_get TCS_STATE_TO_HA (PyStr EVO_RESET) = Ok (Some STATE_AUTO) /\
  dict_get TCS_STATE_TO_HA (PyStr EVO_AUTO) = Ok (Some STATE_AUTO) /\
  dict_get TCS_STATE_TO_HA (PyStr EVO_AUTOECO) = Ok (Some STATE_ECO) /\
  dict_get TCS_STATE_TO_HA (PyStr EVO_AWAY) = Ok (Some STATE_AUTO) /\
  dict_get TCS_STATE_TO_HA (PyStr EVO_DAYOFF) = Ok (Some STATE_AUTO) /\
  dict_get TCS_STATE_TO_HA (PyStr EVO_CUSTOM) = Ok (Some STATE_AUTO) /\
  dict_get TCS_STATE_TO_HA (PyStr EVO_HEATOFF) = Ok (Some STATE_OFF) /\
  Forall (fun m => exists s, dict_get TCS_STATE_TO_HA (PyStr m) = Ok (Some s))
         controller_modes.
Proof.
  assert (H : forall m s, (m, s) ∈ TCS_STATE_TO_HA_items ->
            dict_get TCS_STATE_TO_HA (PyStr m) = Ok (Some s)).
  { intros m s Hin. rewrite dict_get_str. f_equal.
    apply elem_of_list_to_map_1; [apply tables_have_no_repeated_key | done]. }
  repeat split; try (apply H; unfold TCS_STATE_TO_HA_items; set_solver).
  unfold controller_modes.
  repeat (apply List.Forall_cons;
          [eexists; apply H; unfold TCS_STATE_TO_HA_items;
           repeat first [apply list_elem_of_here | apply list_elem_of_further]|]).
  apply List.Forall_nil.
Qed.

(** C3. A device that follows the schedule shows the same operation under
    the controller mode AutoWithReset as under Auto, namely [auto]: the reset
    mode is never shown as a state of its own. *)
Theorem follow_schedule_reset_as_auto self h_reset h_auto :
  system_mode_of (data h_reset) = Ok (PyStr EVO_RESET) ->
  system_mode_of (data h_auto) = Ok (PyStr EVO_AUTO) ->
  setpoint_mode_of self = Ok (PyStr EVO_FOLLOW) ->
  outcome (current_operation self) h_reset
    = outcome (current_operation self) h_auto
  /\ outcome (current_operation self) h_reset = Ok (Some STATE_AUTO).
Proof.
  intros Hr Ha Hz.
  rewrite (current_operation_unfold _ _ _ _ Hr Hz).
  rewrite (current_operation_unfold _ _ _ _ Ha Hz).
  split; reflexivity.
Qed.

Lemma follow_schedule_reset_as_auto_witness :
  outcome (current_operation (dhw_in_mode EVO_FOLLOW)) (host_in_mode EVO_RESET)
    = outcome (current_operation (dhw_in_mode EVO_FOLLOW)) (host_in_mode EVO_AUTO)
  /\ outcome (current_operation (dhw_in_mode EVO_FOLLOW)) (host_in_mode EVO_RESET)
    = Ok (Some STATE_AUTO).
Proof. apply follow_schedule_reset_as_auto; vm_compute; reflexivity. Defined.

(** C4. A device whose own mode is PermanentOverride, or TemporaryOverride,
    shows [manual] whatever the controller's mode is. *)
Theorem override_is_manual self h sm zm :
  system_mode_of (data h) = Ok sm ->
  setpoint_mode_of self = Ok (PyStr zm) ->
  zm = EVO_PERMOVER \/ zm = EVO_TEMPOVER ->
  outcome (current_operation self) h = Ok (Some STATE_MANUAL).
Proof.
  intros Hs Hz Hzm.
  rewrite (current_operation_unfold _ _ _ _ Hs Hz).
  destruct Hzm as [-> | ->]; reflexivity.
Qed.

Lemma override_is_manual_witness :
  outcome (current_operation (dhw_in_mode EVO_PERMOVER)) (host_in_mode EVO_HEATOFF)
    = Ok (Some STATE_MANUAL)
  /\ outcome (current_operation (dhw_in_mode EVO_TEMPOVER)) (host_in_mode EVO_AUTOECO)
    = Ok (Some STATE_MANUAL).
Proof.
  split.
  - apply (override_is_manual _ _ (PyStr EVO_HEATOFF) EVO_PERMOVER);
      [vm_compute; reflexivity | vm_compute; reflexivity | left; reflexivity].
  - apply (override_is_manual _ _ (PyStr EVO_AUTOECO) EVO_TEMPOVER);
      [vm_compute; reflexivity | vm_compute; reflexivity | right; reflexivity].
Defined.

(** C8, as stated, fails: with the zone mode [Boost], which is in no table,
    and the controller in Auto, [current_operation] raises nothing and
    returns [None]; so it does with a device that follows the schedule
    under the controller mode [Boost]. *)
Lemma unmapped_mode_returns_None_example :
  ("Boost" ∉ controller_modes) /\ ("Boost" ∉ zone_modes) /\
  outcome (current_operation (dhw_in_mode "Boost")) (host_in_mode EVO_AUTO)
    = Ok None /\
  outcome (current_operation (dhw_in_mode EVO_FOLLOW)) (host_in_mode "Boost")
    = Ok None /\
  ~ raises (outcome (current_operation (dhw_in_mode "Boost"))
                    (host_in_mode EVO_AUTO)).
Proof.
  split; [|split; [|split; [|split]]].
  - apply (bool_decide_unpack _). vm_compute. exact I.
  - apply (bool_decide_unpack _). vm_compute. exact I.
  - vm_compute. reflexivity.
  - vm_compute. reflexivity.
  - intros [e He]. vm_compute in He. discriminate He.
Qed.

(** C8, amended. A mode string that is in no table makes
    [current_operation] return [None] without raising: when it is the
    device's own mode, and when the device follows the schedule and it is
    the controller's mode. *)
Theorem unmapped_mode_yields_None self h sm zm :
  system_mode_of (data h) = Ok (PyStr sm) ->
  setpoint_mode_of self = Ok (PyStr zm) ->
  ZONE_STATE_TO_HA !! zm = None
    \/ (zm = EVO_FOLLOW /\ TCS_STATE_TO_HA !! sm = None) ->
  outcome (current_operation self) h = Ok None.
Proof.
  intros Hs Hz Hun.
  rewrite (current_operation_unfold _ _ _ _ Hs Hz).
  rewrite !is_str_PyStr, !dict_get_str.
  destruct Hun as [Hzone | [-> Htcs]].
  - case_bool_decide as E; [subst zm; discriminate Hzone|].
    by rewrite Hzone.
  - rewrite bool_decide_eq_true_2 by reflexivity.
    case_bool_decide as E; [subst sm; discriminate Htcs|].
    by rewrite Htcs.
Qed.

Lemma unmapped_mode_yields_None_witness :
  outcome (current_operation (dhw_in_mode "Boost")) (host_in_mode EVO_AWAY)
    = Ok None
  /\ outcome (current_operation (dhw_in_mode EVO_FOLLOW)) (host_in_mode "Boost")
    = Ok None.
Proof.
  split.
  - apply (unmapped_mode_yields_None _ _ EVO_AWAY "Boost");
      [vm_compute; reflexivity | vm_compute; reflexivity
      | left; vm_compute; reflexivity].
  - apply (unmapped_mode_yields_None _ _ "Boost" EVO_FOLLOW);
      [vm_compute; reflexivity | vm_compute; reflexivity
      | right; split; [reflexivity | vm_compute; reflexivity]].
Defined.

(** C10. The tables from displayed states back to vendor modes are right
    inverses of the forward tables: a displayed state that has a controller
    mode is the state that mode displays as, and likewise for zone modes;
    the displayed states that have one are [auto], [eco], [off] for the
    controller and [auto], [manual] for a zone. *)
Theorem inverse_tables_are_right_inverses :
  (forall d m, HA_STATE_TO_TCS !! d = Some m -> TCS_STATE_TO_HA !! m = Some d)
  /\ (forall d m, HA_STATE_TO_ZONE !! d = Some m -> ZONE_STATE_TO_HA !! m = Some d)
  /\ TCS_OP_LIST = [STATE_AUTO; STATE_ECO; STATE_OFF]
  /\ ZONE_OP_LIST = [STATE_AUTO; STATE_MANUAL]
  /\ Forall (fun d => exists m, HA_STATE_TO_TCS !! d = Some m
                              /\ TCS_STATE_TO_HA !! m = Some d) TCS_OP_LIST
  /\ Forall (fun d => exists m, HA_STATE_TO_ZONE !! d = Some m
                              /\ ZONE_STATE_TO_HA !! m = Some d) ZONE_OP_LIST.
Proof.
  assert (Ht : forall d m, HA_STATE_TO_TCS !! d = Some m ->
                           TCS_STATE_TO_HA !! m = Some d).
  { intros d m H. apply table_lookup_inv in H.
    unfold HA_STATE_TO_TCS_items in H.
    repeat (apply elem_of_cons in H as [[= -> ->] | H]; [reflexivity|]).
    by apply elem_of_nil in H. }
  assert (Hz : forall d m, HA_STATE_TO_ZONE !! d = Some m ->
                           ZONE_STATE_TO_HA !! m = Some d).
  { intros d m H. apply table_lookup_inv in H.
    unfold HA_STATE_TO_ZONE_items in H.
    repeat (apply elem_of_cons in H as [[= -> ->] | H]; [reflexivity|]).
    by apply elem_of_nil in H. }
  split; [exact Ht|]. split; [exact Hz|].
  split; [reflexivity|]. split; [reflexivity|]. split.
  - repeat (apply List.Forall_cons;
            [eexists; split; [reflexivity | apply Ht; reflexivity]|]).
    apply List.Forall_nil.
  - repeat (apply List.Forall_cons;
            [eexists; split; [reflexivity | apply Hz; reflexivity]|]).
    apply List.Forall_nil.
Qed.

Lemma inverse_tables_are_right_inverses_witness :
  TCS_STATE_TO_HA !! EVO_AUTOECO = Some STATE_ECO
  /\ ZONE_STATE_TO_HA !! EVO_PERMOVER = Some STATE_MANUAL.
Proof.
  destruct inverse_tables_are_right_inverses as (Ht & Hz & _).
  split; [apply Ht | apply Hz]; vm_compute; reflexivity.
Defined.

End WaterHeaterSpec.

(* ===================================================================== *)
(** ** Devices: polling, refresh packets, the rate-limit handler *)
(* ===================================================================== *)

Module DeviceSpec.
Import Py Evohome WaterHeater Vocabulary Samples PyFacts.

Lemma connect_cases self pkt :
  _connect self pkt = [ScheduleUpdate true] \/ _connect self pkt = [].
Proof. unfold _connect. destruct (_ && _); auto. Qed.

Lemma refreshed_iff self pkt :
  refreshed self pkt <->
  Z.land (to pkt) (_type self) ≠ 0 /\ signal pkt = "refresh".
Proof.
  unfold refreshed, _connect.
  destruct (bool_decide _) eqn:E1; destruct (bool_decide (signal pkt = _)) eqn:E2;
    simpl;
    try apply bool_decide_eq_true in E1; try apply bool_decide_eq_false in E1;
    try apply bool_decide_eq_true in E2; try apply bool_decide_eq_false in E2;
    split; try discriminate; try tauto.
Qed.

(** A mask with the single bit [k] selects exactly the packets whose
    target has that bit. *)
Lemma land_single_bit z k :
  0 <= k -> Z.land z (2 ^ k) ≠ 0 <-> Z.testbit z k = true.
Proof.
  intros Hk. split.
  - intros Hne. destruct (Z.testbit z k) eqn:E; [reflexivity|].
    exfalso. apply Hne. apply Z.bits_inj'. intros n Hn.
    rewrite Z.land_spec, Z.bits_0, Z.pow2_bits_eqb by lia.
    destruct (Z.eqb_spec k n) as [->|]; [by rewrite E | by rewrite andb_false_r].
  - intros Hb Hz. apply (f_equal (fun x => Z.testbit x k)) in Hz.
    rewrite Z.land_spec, Z.bits_0, Z.pow2_bits_eqb, Hb, Z.eqb_refl in Hz by lia.
    discriminate Hz.
Qed.

(** C7. [should_poll] holds exactly of a device of the parent class.  A
    packet refreshes a device exactly when its target mask and the device's
    class mask share a bit and its signal is [refresh]; for a parent that is
    bit 0 of the target, for a child bit 1.  So a packet sent to the parent
    mask alone refreshes no child, and one sent to the child mask alone
    refreshes no parent: the device asks nothing of the host. *)
Theorem refresh_routing (self : device) (pkt : packet) :
  (should_poll self = true <-> _type self = EVO_PARENT)
  /\ (refreshed self pkt <->
        Z.land (to pkt) (_type self) ≠ 0 /\ signal pkt = "refresh")
  /\ (~ refreshed self pkt -> _connect self pkt = [])
  /\ (_type self = EVO_PARENT ->
        (refreshed self pkt <->
           Z.testbit (to pkt) 0 = true /\ signal pkt = "refresh"))
  /\ (_type self = EVO_CHILD ->
        (refreshed self pkt <->
           Z.testbit (to pkt) 1 = true /\ signal pkt = "refresh"))
  /\ (_type self = EVO_CHILD -> to pkt = EVO_PARENT -> _connect self pkt = [])
  /\ (_type self = EVO_PARENT -> to pkt = EVO_CHILD -> _connect self pkt = []).
Proof.
  assert (Hno : ~ refreshed self pkt -> _connect self pkt = []).
  { intros Hn. destruct (connect_cases self pkt) as [H|H]; [contradiction | exact H]. }
  split; [|split; [|split; [|split; [|split; [|split]]]]].
  - unfold should_poll. apply bool_decide_eq_true.
  - apply refreshed_iff.
  - exact Hno.
  - intros Ht. rewrite refreshed_iff, Ht.
    change EVO_PARENT with (2 ^ 0). by rewrite land_single_bit.
  - intros Ht. rewrite refreshed_iff, Ht.
    change EVO_CHILD with (2 ^ 1). by rewrite land_single_bit.
  - intros Ht Hto. apply Hno. rewrite refreshed_iff, Ht, Hto.
    intros [H _]. by apply H.
  - intros Ht Hto. apply Hno. rewrite refreshed_iff, Ht, Hto.
    intros [H _]. by apply H.
Qed.

Lemma refresh_routing_witness :
  _connect (dhw_in_mode EVO_FOLLOW) first_update_packet = []
  /\ _connect a_controller (Packet "controller" "refresh" EVO_CHILD) = []
  /\ refreshed a_controller first_update_packet.
Proof.
  destruct (refresh_routing (dhw_in_mode EVO_FOLLOW) first_update_packet)
    as (_ & _ & _ & _ & _ & Hchild & _).
  destruct (refresh_routing a_controller (Packet "controller" "refresh" EVO_CHILD))
    as (_ & _ & _ & _ & _ & _ & Hparent).
  destruct (refresh_routing a_controller first_update_packet)
    as (_ & _ & _ & Hbit & _).
  split; [apply Hchild; reflexivity|].
  split; [apply Hparent; reflexivity|].
  apply Hbit; [reflexivity | split; reflexivity].
Defined.

(** The packet that [setup] arranges to be sent at start-up reaches the
    controller and no child. *)
Lemma first_update_reaches_parent_only :
  dispatch [a_controller; dhw_in_mode EVO_FOLLOW] first_update_packet
  = [(a_controller, [ScheduleUpdate true]); (dhw_in_mode EVO_FOLLOW, [])].
Proof. reflexivity. Qed.

(** The module never binds the name [datetime]. *)
Lemma datetime_is_unbound :
  resolve module_globals "datetime" = Raise (NameError "datetime").
Proof. vm_compute. reflexivity. Qed.

(** C1 (the code departs from it). On a status 429 the handler computes
    [max(scan_interval, SCAN_INTERVAL_DEFAULT) * 3] and logs it, and then
    raises [NameError]: [datetime.now()] names a global that the module
    does not import.  No time is recorded in the timers. *)
Theorem rate_limit_handler_raises_NameError now self h :
  let run := _handle_requests_exceptions now self HTTP_TOO_MANY_REQUESTS in
  outcome run h = Raise (NameError "datetime")
  /\ timers (data (host_after run h)) = timers (data h)
  /\ log (host_after run h) =
       (log h ++ [LogRecord LWARNING msg_rate_limit
                    [ATimedelta (td_mul (td_max (scan_interval (params (data h)))
                                                SCAN_INTERVAL_DEFAULT) 3)]])%list.
Proof.
  unfold outcome, host_after, _handle_requests_exceptions,
    handle_requests_exceptions_in.
  change (HTTP_TOO_MANY_REQUESTS =? HTTP_TOO_MANY_REQUESTS) with true.
  unfold mbind, M_bind, get_data, logger, lift. cbn [fst snd data log].
  rewrite datetime_is_unbound. cbn [fst snd data log]. auto.
Qed.

(** Were [datetime] bound in the module, the handler would record
    [now + max(scan_interval, SCAN_INTERVAL_DEFAULT) * 3]. *)
Lemma rate_limit_handler_with_datetime globals now self h :
  "datetime" ∈ globals ->
  let run := handle_requests_exceptions_in globals now self
               HTTP_TOO_MANY_REQUESTS in
  outcome run h = Ok ()
  /\ timers (data (host_after run h)) !! "statusUpdated" =
       Some (dt_add now (td_mul (td_max (scan_interval (params (data h)))
                                        SCAN_INTERVAL_DEFAULT) 3)).
Proof.
  intros Hin. unfold outcome, host_after, handle_requests_exceptions_in.
  change (HTTP_TOO_MANY_REQUESTS =? HTTP_TOO_MANY_REQUESTS) with true.
  unfold mbind, M_bind, get_data, logger, lift, resolve.
  rewrite bool_decide_eq_true_2 by exact Hin.
  cbn. split; [reflexivity | apply lookup_insert_eq].
Qed.

(** The interval of the suspension is at least three default intervals,
    900 seconds, and exactly that for a configured 300 seconds. *)
Lemma suspension_interval_bounds si :
  td_us (td_seconds 900)
    <= td_us (td_mul (td_max si SCAN_INTERVAL_DEFAULT) 3)
  /\ td_mul (td_max (td_seconds 300) SCAN_INTERVAL_DEFAULT) 3 = td_seconds 900.
Proof.
  split; [|reflexivity].
  unfold td_max, td_ltb, td_mul, SCAN_INTERVAL_DEFAULT, td_seconds,
    us_per_second.
  destruct si as [us]; cbn [td_us].
  destruct (Z.ltb_spec us (300 * 1000000)); cbn [td_us]; lia.
Qed.

(** Any other status is raised again, and the host is left as it was. *)
Lemma other_status_is_raised_again now self code h :
  code ≠ HTTP_TOO_MANY_REQUESTS ->
  _handle_requests_exceptions now self code h = (h, Raise (HTTPError code)).
Proof.
  intros Hne. unfold _handle_requests_exceptions, handle_requests_exceptions_in.
  destruct (Z.eqb_spec code HTTP_TOO_MANY_REQUESTS); [contradiction | reflexivity].
Qed.

End DeviceSpec.

(* ===================================================================== *)
(** ** Set-up: the polling interval, failures, redaction *)
(* ===================================================================== *)

Module SetupSpec.
Import Py Evohome WaterHeater Vocabulary Samples PyFacts.

(** *** The rounded polling interval *)

(** In whole microseconds: [(td + 59 s) // 60 s] minutes. *)
Lemma round_scan_interval_minutes si :
  round_scan_interval si = td_minutes ((td_us si + 59000000) / 60000000).
Proof.
  unfold round_scan_interval. f_equal.
  destruct si as [us]. unfold total_seconds. cbn [td_us].
  change (Z.to_pos us_per_second) with 1000000%positive.
  transitivity (Qfloor ((us + 59000000) # 60000000)).
  - apply Qfloor_comp. unfold Qeq, Qdiv, Qmult, Qplus, Qinv. cbn. lia.
  - reflexivity.
Qed.

(** An interval of whole seconds is rounded up to the next whole minute. *)
Lemma round_scan_interval_whole_seconds s :
  round_scan_interval (td_seconds s) = td_minutes ((s + 59) / 60)
  /\ s <= 60 * ((s + 59) / 60) < s + 60.
Proof.
  split.
  - rewrite round_scan_interval_minutes. f_equal.
    unfold td_seconds, us_per_second. cbn [td_us].
    replace (s * 1000000 + 59000000) with ((s + 59) * 1000000) by lia.
    change 60000000 with (60 * 1000000).
    by rewrite Z.div_mul_cancel_r by lia.
  - pose proof (Z.div_mod (s + 59) 60 ltac:(lia)).
    pose proof (Z.mod_pos_bound (s + 59) 60 ltac:(lia)). lia.
Qed.

(** In general the result is below the configured interval exactly when
    the interval exceeds a whole minute by less than a second. *)
Lemma round_scan_interval_below si :
  td_ltb (round_scan_interval si) si = true <->
  0 < td_us si mod 60000000 < 1000000.
Proof.
  rewrite round_scan_interval_minutes. destruct si as [us].
  unfold td_ltb, td_minutes, td_seconds, us_per_second. cbn [td_us].
  rewrite Z.ltb_lt.
  pose proof (Z.div_mod (us + 59000000) 60000000 ltac:(lia)).
  pose proof (Z.mod_pos_bound (us + 59000000) 60000000 ltac:(lia)).
  pose proof (Z.div_mod us 60000000 ltac:(lia)).
  pose proof (Z.mod_pos_bound us 60000000 ltac:(lia)).
  set (q := (us + 59000000) / 60000000) in *.
  set (r := (us + 59000000) mod 60000000) in *.
  set (q' := us / 60000000) in *.
  set (r' := us mod 60000000) in *.
  split; intros; nia.
Qed.

(** C5 (the code departs from it). The schema accepts an interval of 180.5
    seconds, and [setup] rounds it to 3 minutes, which is less: the
    fraction of a second is dropped, not rounded up.  (200 seconds do give
    4 minutes.) *)
Theorem scan_interval_half_second_rounds_down :
  schema_accepts (Conf "alice@example.org" "hunter2" 0 (td_seconds_ms 180 500))
    = true
  /\ round_scan_interval (td_seconds_ms 180 500) = td_minutes 3
  /\ td_ltb (td_minutes 3) (td_seconds_ms 180 500) = true
  /\ round_scan_interval (td_seconds 200) = td_minutes 4.
Proof. repeat split; vm_compute; reflexivity. Qed.

(** *** How [setup] runs *)

Lemma M_bind_Ok {A B} (m : M A) (k : A -> M B) h h' b :
  (m ≫= k) h = (h', Ok b) ->
  exists a h1, m h = (h1, Ok a) /\ k a h1 = (h', Ok b).
Proof.
  unfold mbind, M_bind. destruct (m h) as [h1 [a|e]]; [eauto | discriminate].
Qed.

Lemma M_bind_run {A B} (m : M A) (k : A -> M B) h h1 a :
  m h = (h1, Ok a) -> (m ≫= k) h = k a h1.
Proof. intros H. unfold mbind, M_bind. by rewrite H. Qed.

Lemma setup_when_refused EvohomeClient debug cfg h err :
  EvohomeClient (username cfg) (password cfg) = Raise err ->
  setup EvohomeClient debug cfg h =
    ((modify_data (set_params redact_credentials)
        (except_HTTPError err (entered cfg h)).1).1,
     (except_HTTPError err (entered cfg h)).2).
Proof.
  intros He. unfold setup, mbind, M_bind, modify_data at 1, get_data.
  cbn [data params]. rewrite He. fold (entered cfg h).
  by destruct (except_HTTPError err (entered cfg h)).
Qed.

Lemma setup_when_accepted EvohomeClient debug cfg h cl :
  EvohomeClient (username cfg) (password cfg) = Ok cl ->
  setup EvohomeClient debug cfg h =
    setup_installation cl debug (entered (redact_credentials cfg) h).
Proof.
  intros He. unfold setup, mbind at 1 2 3, M_bind at 1 2 3, modify_data at 1, get_data.
  cbn [data params]. rewrite He. reflexivity.
Qed.

(** *** Assignments into a location *)

Lemma assign2_dict d di k1 k2 x :
  d !! k1 = Some (PyDict di) ->
  assign2 k1 k2 x (PyDict d) = Ok (PyDict (<[k1 := PyDict (<[k2 := x]> di)]> d)).
Proof. intros Hd. unfold assign2. simpl. rewrite Hd. reflexivity. Qed.

Lemma assign2_Ok k1 k2 x o o' :
  assign2 k1 k2 x o = Ok o' ->
  exists d di, o = PyDict d /\ d !! k1 = Some (PyDict di) /\
               o' = PyDict (<[k1 := PyDict (<[k2 := x]> di)]> d).
Proof.
  unfold assign2. intros H.
  apply bind_Ok in H as (inner & Hg & H).
  apply bind_Ok in H as (inner' & Hs & H).
  apply getitem_Ok in Hg as (d & -> & Hd).
  apply setitem_Ok in Hs as (di & -> & ->).
  simpl in H. injection H as <-. eauto.
Qed.

Lemma assign_gateway_info_dict d dg rest x :
  d !! GWS = Some (PyList (PyDict dg :: rest)) ->
  assign_gateway_info x (PyDict d) =
    Ok (PyDict (<[GWS := PyList (PyDict (<["gatewayInfo" := x]> dg) :: rest)]> d)).
Proof. intros Hd. unfold assign_gateway_info. simpl. rewrite Hd. reflexivity. Qed.

Lemma assign_gateway_info_Ok x loc loc' :
  assign_gateway_info x loc = Ok loc' ->
  exists d dg rest,
    loc = PyDict d /\ d !! GWS = Some (PyList (PyDict dg :: rest)) /\
    loc' = PyDict (<[GWS := PyList (PyDict (<["gatewayInfo" := x]> dg) :: rest)]> d).
Proof.
  unfold assign_gateway_info. intros H.
  apply bind_Ok in H as (gws & Hg & H).
  apply bind_Ok in H as (gw & Hf & H).
  apply bind_Ok in H as (gw' & Hs & H).
  apply getitem_Ok in Hg as (d & -> & Hd).
  apply setitem_Ok in Hs as (dg & -> & ->).
  destruct gws as [| | | | s | l |]; try discriminate Hf.
  - destruct s; discriminate Hf.
  - destruct l as [|g rest]; [discriminate Hf|].
    simpl in Hf. injection Hf as ->.
    simpl in H. injection H as <-. eauto 10.
Qed.

(** What an assignment under ['locationInfo'] changes, and what it keeps. *)
Lemma assign2_info_effect k x o o' :
  assign2 "locationInfo" k x o = Ok o' ->
  get2 o' "locationInfo" k = Ok x
  /\ (forall k', k ≠ k' -> get2 o' "locationInfo" k' = get2 o "locationInfo" k')
  /\ gateway_info_of o' = gateway_info_of o.
Proof.
  intros H. apply assign2_Ok in H as (d & di & -> & Hd & ->).
  unfold get2, gateway_info_of. split; [|split].
  - rewrite getitem_insert_eq. apply getitem_insert_eq.
  - intros k' Hk. rewrite getitem_insert_eq. simpl. rewrite Hd. simpl.
    by rewrite lookup_insert_ne.
  - by rewrite getitem_insert_ne.
Qed.

Lemma assign_gateway_info_effect x o o' :
  assign_gateway_info x o = Ok o' ->
  gateway_info_of o' = Ok x
  /\ (forall k, get2 o' "locationInfo" k = get2 o "locationInfo" k).
Proof.
  intros H. apply assign_gateway_info_Ok in H as (d & dg & rest & -> & Hd & ->).
  unfold get2, gateway_info_of. split.
  - rewrite getitem_insert_eq. simpl. by rewrite lookup_insert_eq.
  - intros k. by rewrite getitem_insert_ne.
Qed.

(** *** The redaction loop *)

(** When the body of the loop runs to its end on a location, the location
    is redacted. *)
Lemma redact_body_Ok loc loc' :
  run_on redact_body loc = (loc', Ok ()) -> redacted_location loc'.
Proof.
  unfold redact_body. cbn [run_on]. intros H.
  destruct (assign2 _ "locationId" _ loc) as [l1|] eqn:E1; [|discriminate H].
  destruct (assign2 _ "locationOwner" _ l1) as [l2|] eqn:E2; [|discriminate H].
  destruct (assign2 _ "streetAddress" _ l2) as [l3|] eqn:E3; [|discriminate H].
  destruct (assign2 _ "city" _ l3) as [l4|] eqn:E4; [|discriminate H].
  destruct (assign_gateway_info _ l4) as [l5|] eqn:E5; [|discriminate H].
  injection H as <-.
  apply assign2_info_effect in E1 as (S1 & _ & _).
  apply assign2_info_effect in E2 as (S2 & K2 & _).
  apply assign2_info_effect in E3 as (S3 & K3 & _).
  apply assign2_info_effect in E4 as (S4 & K4 & _).
  apply assign_gateway_info_effect in E5 as (S5 & K5).
  unfold redacted_location. rewrite !K5. repeat split.
  - by rewrite K4, K3, K2.
  - by rewrite K4, K3.
  - by rewrite K4.
  - done.
  - done.
Qed.

(** On a location of the shape of the data model the body runs to its end. *)
Lemma redact_body_succeeds loc :
  has_info_and_gateway loc = true ->
  exists loc', run_on redact_body loc = (loc', Ok ()).
Proof.
  destruct loc as [| | | | | |d]; try discriminate. simpl.
  destruct (d !! "locationInfo") as [[| | | | | |di]|] eqn:Ei; try discriminate.
  destruct (d !! GWS) as [[| | | | |[|[| | | | | |dg] rest]|]|] eqn:Eg;
    try discriminate.
  intros _. unfold redact_body. cbn [run_on].
  rewrite (assign2_dict _ _ _ _ _ Ei).
  rewrite (assign2_dict _ _ _ _ _ (lookup_insert_eq _ _ _)).
  rewrite (assign2_dict _ _ _ _ _ (lookup_insert_eq _ _ _)).
  rewrite (assign2_dict _ _ _ _ _ (lookup_insert_eq _ _ _)).
  erewrite assign_gateway_info_dict; [eauto|].
  rewrite !lookup_insert_ne by done. exact Eg.
Qed.

Lemma for_each_length body l : length (for_each body l).1 = length l.
Proof.
  induction l as [|o rest IH]; [reflexivity|]. simpl.
  destruct (body o) as [o' [[]|e]]; [|reflexivity].
  destruct (for_each body rest) as [rest' r]. simpl in *. by rewrite IH.
Qed.

Lemma for_each_Ok (P : pyval -> Prop) body l l' :
  (forall o o', body o = (o', Ok ()) -> P o') ->
  for_each body l = (l', Ok ()) -> Forall P l'.
Proof.
  intros HP. revert l'. induction l as [|o rest IH]; intros l' H; simpl in H.
  - injection H as <-. constructor.
  - destruct (body o) as [o' [[]|e]] eqn:Eo; [|discriminate H].
    destruct (for_each body rest) as [rest' r] eqn:Er.
    injection H as <- ->. constructor; [eapply HP; eauto | by apply IH].
Qed.

Lemma for_each_succeeds body l :
  Forall (fun o => exists o', body o = (o', Ok ())) l ->
  exists l', for_each body l = (l', Ok ()).
Proof.
  induction 1 as [|o rest [o' Ho] _ [rest' IH]]; simpl; [eauto|].
  rewrite Ho, IH. eauto.
Qed.

(** *** The blocks of [setup] *)


Lemma load_platforms_data cfg h : data (load_platforms cfg h).1 = data h.
Proof.
  unfold load_platforms, mbind, M_bind, load_platform, lift. cbn [fst snd].
  repeat match goal with
         | |- context [match ?r with Ok _ => _ | Raise _ => _ end] =>
             destruct r; try reflexivity
         | |- context [if ?b then _ else _] => destruct b; try reflexivity
         end.
Qed.

Lemma redact_installation_info_run cl h :
  redact_installation_info cl h =
    (Hass (set_client
             (Some (Client (for_each (run_on redact_body) (installation_info cl)).1))
             (data h))
          (log h) (platforms h) (on_start h),
     (for_each (run_on redact_body) (installation_info cl)).2).
Proof.
  unfold redact_installation_info.
  destruct (for_each _ _) as [info' r]. reflexivity.
Qed.

Lemma debug_dump_Ok loc_idx cfg h h' cfg' :
  debug_dump loc_idx cfg h = (h', Ok cfg') ->
  assign2 "locationInfo" "postcode" REDACTED cfg = Ok cfg'
  /\ data h' =
       set_client
         ((fun cl => Client (<[loc_idx := cfg']> (installation_info cl)))
            <$> client (data h)) (data h).
Proof.
  unfold debug_dump. intros H.
  apply M_bind_Ok in H as (tmp & h1 & H1 & H).
  apply M_bind_Ok in H as (tmp' & h2 & H2 & H).
  apply M_bind_Ok in H as ([] & h3 & H3 & H).
  apply M_bind_Ok in H as ([] & h4 & H4 & H).
  unfold lift in H1, H2. injection H1 as <- H1. injection H2 as <- H2.
  unfold modify_data in H3. injection H3 as <-.
  unfold logger in H4. injection H4 as <-.
  injection H as <- <-.
  destruct cfg; try discriminate H1. injection H1 as <-.
  split; [exact H2 | reflexivity].
Qed.



(** *** Failures of [setup] *)

Lemma setup_refused_with EvohomeClient debug cfg h code m a :
  EvohomeClient (username cfg) (password cfg) = Raise (HTTPError code) ->
  except_HTTPError (HTTPError code) (entered cfg h) =
    ((logger LERROR m a (entered cfg h)).1, Ok false) ->
  outcome (setup EvohomeClient debug cfg) h = Ok false
  /\ log (host_after (setup EvohomeClient debug cfg) h)
     = (log h ++ [LogRecord LERROR m a])%list.
Proof.
  intros He Hx. unfold outcome, host_after.
  rewrite (setup_when_refused _ _ _ _ _ He), Hx. split; reflexivity.
Qed.

Lemma setup_index_out_of_range EvohomeClient debug cfg h cl :
  EvohomeClient (username cfg) (password cfg) = Ok cl ->
  Forall (fun loc => has_info_and_gateway loc = true) (installation_info cl) ->
  (length (installation_info cl) <= location_idx cfg)%nat ->
  outcome (setup EvohomeClient debug cfg) h = Ok false
  /\ log (host_after (setup EvohomeClient debug cfg) h)
     = (log h ++ [LogRecord LWARNING msg_location_idx
                    [AStr CONF_LOCATION_IDX; AInt (Z.of_nat (location_idx cfg));
                     AInt (Z.of_nat (length (installation_info cl)) - 1)]])%list.
Proof.
  intros He Hwf Hlen. unfold outcome, host_after.
  rewrite (setup_when_accepted _ _ _ _ _ He).
  destruct (for_each_succeeds (run_on redact_body) (installation_info cl))
    as [info Hloop].
  { eapply Forall_impl; [exact Hwf|]. intros loc. apply redact_body_succeeds. }
  pose proof (for_each_length (run_on redact_body) (installation_info cl)) as Hl.
  rewrite Hloop in Hl. cbn [fst] in Hl.
  unfold setup_installation.
  rewrite (M_bind_run (modify_data _) _ _ _ _ eq_refl).
  erewrite (M_bind_run (redact_installation_info cl));
    [|by rewrite redact_installation_info_run, Hloop].
  rewrite (M_bind_run get_data _ _ _ _ eq_refl).
  cbn [data client set_client set_status present].
  rewrite (M_bind_run (lift _) _ _ _ _ eq_refl).
  cbn [fst data params client set_client set_status installation_info
       location_idx redact_credentials entered log platforms on_start].
  rewrite (lookup_ge_None_2 info (location_idx cfg)) by lia.
  rewrite Hl. split; reflexivity.
Qed.

(** The loop itself is outside every [try]: a location without a gateway
    makes [loc[GWS][0]] raise an [IndexError] that leaves [setup], whatever
    the configured index is. *)
Lemma setup_raises_without_gateway :
  outcome (setup vendor_without_gateway false far_conf) fresh_host
  = Raise IndexError.
Proof. vm_compute. reflexivity. Qed.

(** C6, as stated, fails: the vendor returns one location, the configured
    index is 5, beyond it, and [setup] does not return [False]: the location
    has an empty gateway list, and [loc[GWS][0]] in the redaction loop, which
    runs before the index is looked up and inside no [try], raises an
    [IndexError] that leaves [setup].  Two locations, the first one complete
    and the second without a gateway, with debug logging on, end the same
    way. *)
Lemma setup_index_beyond_raises_example :
  vendor_without_gateway (username far_conf) (password far_conf)
    = Ok (Client [a_location_without_gateway])
  /\ (length (installation_info (Client [a_location_without_gateway]))
      < location_idx far_conf)%nat
  /\ outcome (setup vendor_without_gateway false far_conf) fresh_host
     = Raise IndexError
  /\ outcome (setup vendor_without_gateway false far_conf) fresh_host
     ≠ Ok false
  /\ (length [a_location; a_location_without_gateway]
      < location_idx far_conf)%nat
  /\ outcome (setup (fun _ _ => Ok (Client [a_location;
                                            a_location_without_gateway]))
                    true far_conf) fresh_host
     = Raise IndexError.
Proof.
  split; [reflexivity|].
  split; [vm_compute; lia|].
  split; [vm_compute; reflexivity|].
  split; [vm_compute; discriminate|].
  split; [vm_compute; lia|].
  vm_compute. reflexivity.
Qed.

(** C6, amended. When the vendor refuses with status 400, 503 or 429,
    [setup] logs one error, a different text for each of the three, and
    returns [False]; when the client is created, every returned location has
    a [locationInfo] object and a first gateway object, and the configured
    index is not below the number of locations, [setup] logs a warning and
    returns [False]; an [HTTPError] of any other status comes out of [setup]
    as it is. *)
Theorem setup_failure_modes EvohomeClient debug cfg h :
  let run := setup EvohomeClient debug cfg in
  let answer := EvohomeClient (username cfg) (password cfg) in
  (answer = Raise (HTTPError HTTP_BAD_REQUEST) ->
     outcome run h = Ok false
     /\ log (host_after run h)
        = (log h ++ [LogRecord LERROR msg_bad_request [AStr (username cfg)]])%list)
  /\ (answer = Raise (HTTPError HTTP_SERVICE_UNAVAILABLE) ->
       outcome run h = Ok false
       /\ log (host_after run h)
          = (log h ++ [LogRecord LERROR msg_service_unavailable []])%list)
  /\ (answer = Raise (HTTPError HTTP_TOO_MANY_REQUESTS) ->
       outcome run h = Ok false
       /\ log (host_after run h)
          = (log h ++ [LogRecord LERROR msg_too_many_requests []])%list)
  /\ (msg_bad_request ≠ msg_service_unavailable
       /\ msg_bad_request ≠ msg_too_many_requests
       /\ msg_service_unavailable ≠ msg_too_many_requests)
  /\ (forall cl,
        answer = Ok cl ->
        Forall (fun loc => has_info_and_gateway loc = true) (installation_info cl) ->
        (length (installation_info cl) <= location_idx cfg)%nat ->
        outcome run h = Ok false
        /\ log (host_after run h)
           = (log h ++ [LogRecord LWARNING msg_location_idx
                          [AStr CONF_LOCATION_IDX;
                           AInt (Z.of_nat (location_idx cfg));
                           AInt (Z.of_nat (length (installation_info cl)) - 1)]])%list)
  /\ (forall code,
        answer = Raise (HTTPError code) ->
        code ≠ HTTP_BAD_REQUEST -> code ≠ HTTP_SERVICE_UNAVAILABLE ->
        code ≠ HTTP_TOO_MANY_REQUESTS ->
        outcome run h = Raise (HTTPError code)).
Proof.
  cbv zeta. split; [|split; [|split; [|split; [|split]]]].
  - intros He. by apply (setup_refused_with _ _ _ _ _ _ _ He).
  - intros He. by apply (setup_refused_with _ _ _ _ _ _ _ He).
  - intros He. by apply (setup_refused_with _ _ _ _ _ _ _ He).
  - repeat split; intros H; vm_compute in H; discriminate H.
  - intros cl. apply setup_index_out_of_range.
  - intros code He H1 H2 H3. unfold outcome.
    rewrite (setup_when_refused _ _ _ _ _ He). cbn [snd].
    unfold except_HTTPError.
    destruct (Z.eqb_spec code HTTP_BAD_REQUEST); [contradiction|].
    destruct (Z.eqb_spec code HTTP_SERVICE_UNAVAILABLE); [contradiction|].
    destruct (Z.eqb_spec code HTTP_TOO_MANY_REQUESTS); [contradiction|].
    reflexivity.
Qed.

Lemma setup_failure_modes_witness :
  outcome (setup (vendor_fails 429) false a_conf) fresh_host = Ok false
  /\ outcome (setup (vendor_fails 400) false a_conf) fresh_host = Ok false
  /\ outcome (setup vendor_ok false far_conf) fresh_host = Ok false
  /\ outcome (setup (vendor_fails 500) false a_conf) fresh_host
     = Raise (HTTPError 500).
Proof.
  destruct (setup_failure_modes (vendor_fails 429) false a_conf fresh_host)
    as (_ & _ & H429 & _).
  destruct (setup_failure_modes (vendor_fails 400) false a_conf fresh_host)
    as (H400 & _).
  destruct (setup_failure_modes vendor_ok false far_conf fresh_host)
    as (_ & _ & _ & _ & Hidx & _).
  destruct (setup_failure_modes (vendor_fails 500) false a_conf fresh_host)
    as (_ & _ & _ & _ & _ & Hother).
  split; [apply H429; reflexivity|].
  split; [apply H400; reflexivity|].
  split.
  - apply (Hidx a_client); [reflexivity | | vm_compute; lia].
    repeat constructor.
  - apply Hother; [reflexivity | discriminate ..].
Defined.

(** *** What [setup] retains *)


Lemma keeps_params_lift {A} (r : result A) : keeps_params (lift r).
Proof. by intros h. Qed.
Lemma keeps_params_ret {A} (a : A) : keeps_params (mret a).
Proof. by intros h. Qed.
Lemma keeps_params_logger lvl m a : keeps_params (logger lvl m a).
Proof. by intros h. Qed.
Lemma keeps_params_load_platform p : keeps_params (load_platform p).
Proof. by intros h. Qed.
Lemma keeps_params_bus_listen_start p : keeps_params (bus_listen_start p).
Proof. by intros h. Qed.
Lemma keeps_params_get_data : keeps_params get_data.
Proof. by intros h. Qed.

Create HintDb keeps.
#[local] Hint Resolve keeps_params_lift keeps_params_ret keeps_params_logger
  keeps_params_load_platform keeps_params_bus_listen_start
  keeps_params_get_data : keeps.






End SetupSpec.

(* ===================================================================== *)
(** ** More on [setup] *)
(* ===================================================================== *)

Module SetupFurther.
Import Py Evohome WaterHeater WaterHeaterPlatform Vocabulary Samples Frames
  MoreSamples PyFacts SetupSpec.

(** *** Running statements *)

Lemma M_bind_raise {A B} (m : M A) (k : A -> M B) h h1 e :
  m h = (h1, Raise e) -> (m ≫= k) h = (h1, Raise e).
Proof. intros H. unfold mbind, M_bind. by rewrite H. Qed.

Lemma preserves_bind {X A B} (f : hass -> X) (m : M A) (k : A -> M B) :
  preserves f m -> (forall a, preserves f (k a)) -> preserves f (m ≫= k).
Proof.
  intros Hm Hk h. unfold mbind, M_bind. specialize (Hm h).
  destruct (m h) as [h1 [a|e]]; simpl in *; [|exact Hm].
  by rewrite Hk.
Qed.

Ltac preserve :=
  repeat first
    [ apply preserves_bind; [|intros ?]
    | solve [intros ?; reflexivity]
    | match goal with
      | |- preserves _ (if ?b then _ else _) => destruct b
      | |- preserves _ (match ?o with Some _ => _ | None => _ end) => destruct o
      end ].

(** *** The loop body, in closed form *)

Lemma redact_body_closed_form loc loc' :
  run_on redact_body loc = (loc', Ok ()) ->
  exists d di dg rest,
    loc = PyDict d
    /\ d !! "locationInfo" = Some (PyDict di)
    /\ d !! GWS = Some (PyList (PyDict dg :: rest))
    /\ loc' =
       PyDict
         (<[GWS := PyList (PyDict (<["gatewayInfo" := REDACTED]> dg) :: rest)]>
            (<["locationInfo" :=
                 PyDict (<["city" := REDACTED]>
                           (<["streetAddress" := REDACTED]>
                              (<["locationOwner" := REDACTED]>
                                 (<["locationId" := REDACTED]> di))))]> d)).
Proof.
  unfold redact_body. cbn [run_on]. intros H.
  destruct (assign2 _ "locationId" _ loc) as [l1|] eqn:E1; [|discriminate H].
  destruct (assign2 _ "locationOwner" _ l1) as [l2|] eqn:E2; [|discriminate H].
  destruct (assign2 _ "streetAddress" _ l2) as [l3|] eqn:E3; [|discriminate H].
  destruct (assign2 _ "city" _ l3) as [l4|] eqn:E4; [|discriminate H].
  destruct (assign_gateway_info _ l4) as [l5|] eqn:E5; [|discriminate H].
  injection H as <-.
  apply assign2_Ok in E1 as (d & di & -> & Hd & ->).
  rewrite (assign2_dict _ _ _ _ _ (lookup_insert_eq _ _ _)) in E2.
  injection E2 as <-.
  rewrite (assign2_dict _ _ _ _ _ (lookup_insert_eq _ _ _)) in E3.
  injection E3 as <-.
  rewrite (assign2_dict _ _ _ _ _ (lookup_insert_eq _ _ _)) in E4.
  injection E4 as <-.
  rewrite !insert_insert_eq in E5.
  apply assign_gateway_info_Ok in E5 as (d' & dg & rest & Hd' & Hg & ->).
  injection Hd' as <-.
  rewrite lookup_insert_ne in Hg by done.
  exists d, di, dg, rest. auto.
Qed.

(** The body runs to its end exactly on the locations of the shape of the
    data model. *)
Lemma redact_body_succeeds_iff loc :
  has_info_and_gateway loc = true <->
  exists loc', run_on redact_body loc = (loc', Ok ()).
Proof.
  split; [apply redact_body_succeeds|]. intros [loc' H].
  apply redact_body_closed_form in H as (d & di & dg & rest & -> & Hi & Hg & _).
  simpl. by rewrite Hi, Hg.
Qed.

Lemma redact_body_fails loc :
  has_info_and_gateway loc = false ->
  exists loc' e, run_on redact_body loc = (loc', Raise e).
Proof.
  intros Hno. destruct (run_on redact_body loc) as [loc' [[]|e]] eqn:E; [|eauto].
  assert (has_info_and_gateway loc = true)
    by (apply redact_body_succeeds_iff; eauto).
  congruence.
Qed.

Lemma tcs_of_gateway_item loc :
  tcs_of loc = gateway_item loc TCS ≫= getfirst.
Proof.
  unfold tcs_of, gateway_item.
  destruct (getitem loc GWS) as [gws|]; [|reflexivity]. simpl.
  destruct (getfirst gws) as [gw|]; [|reflexivity]. reflexivity.
Qed.

Lemma redact_body_same_elsewhere loc loc' :
  run_on redact_body loc = (loc', Ok ()) -> same_elsewhere loc loc'.
Proof.
  intros H.
  apply redact_body_closed_form in H as (d & di & dg & rest & -> & Hi & Hg & ->).
  unfold same_elsewhere, get2, gateway_item, other_gateways.
  split; [|split; [|split]].
  - intros k H1 H2. by rewrite !getitem_insert_ne.
  - intros k Hk.
    rewrite getitem_insert_ne, getitem_insert_eq by done.
    simpl. rewrite Hi. simpl.
    assert (Hne : forall r, r ∈ redacted_keys -> r ≠ k)
      by (intros r Hr ->; contradiction).
    unfold redacted_keys in Hne.
    rewrite !lookup_insert_ne; [done|apply Hne; set_solver ..].
  - intros k Hk. rewrite getitem_insert_eq. simpl. rewrite Hg. simpl.
    by rewrite lookup_insert_ne.
  - rewrite getitem_insert_eq. simpl. by rewrite Hg.
Qed.

Lemma same_elsewhere_tcs_of loc loc' :
  same_elsewhere loc loc' -> tcs_of loc' = tcs_of loc.
Proof.
  intros (_ & _ & Hg & _). rewrite !tcs_of_gateway_item.
  by rewrite Hg.
Qed.

(** Redacting what is redacted already changes nothing. *)
Lemma assign2_noop k1 k2 x o :
  get2 o k1 k2 = Ok x -> assign2 k1 k2 x o = Ok o.
Proof.
  unfold get2. intros H.
  apply bind_Ok in H as (inner & Hg & H).
  apply getitem_Ok in Hg as (d & -> & Hd).
  apply getitem_Ok in H as (di & -> & Hdi).
  rewrite (assign2_dict _ _ _ _ _ Hd). by rewrite (insert_id di), (insert_id d).
Qed.

Lemma assign_gateway_info_noop x o :
  gateway_info_of o = Ok x -> assign_gateway_info x o = Ok o.
Proof.
  unfold gateway_info_of. intros H.
  apply bind_Ok in H as (gws & Hg & H).
  apply bind_Ok in H as (gw & Hf & H).
  apply getitem_Ok in Hg as (d & -> & Hd).
  apply getitem_Ok in H as (dg & -> & Hdg).
  destruct gws as [| | | | s | l |]; try discriminate Hf.
  - destruct s; discriminate Hf.
  - destruct l as [|g rest]; [discriminate Hf|].
    simpl in Hf. injection Hf as ->.
    rewrite (assign_gateway_info_dict _ _ _ _ Hd).
    by rewrite (insert_id dg), (insert_id d).
Qed.

Lemma redact_body_noop loc :
  redacted_location loc -> run_on redact_body loc = (loc, Ok ()).
Proof.
  intros (R1 & R2 & R3 & R4 & R5). unfold redact_body. cbn [run_on].
  rewrite (assign2_noop _ _ _ _ R1), (assign2_noop _ _ _ _ R2),
    (assign2_noop _ _ _ _ R3), (assign2_noop _ _ _ _ R4),
    (assign_gateway_info_noop _ _ R5).
  reflexivity.
Qed.

(** *** The loop *)

Lemma for_each_Forall2 body l l' :
  for_each body l = (l', Ok ()) ->
  Forall2 (fun o o' => body o = (o', Ok ())) l l'.
Proof.
  revert l'. induction l as [|o rest IH]; intros l' H; simpl in H.
  - injection H as <-. constructor.
  - destruct (body o) as [o' [[]|e]] eqn:Eo; [|discriminate H].
    destruct (for_each body rest) as [rest' r] eqn:Er.
    injection H as <- ->. constructor; [exact Eo | by apply IH].
Qed.

Lemma for_each_app_raise body pre pre' bad bad' post e :
  for_each body pre = (pre', Ok ()) ->
  body bad = (bad', Raise e) ->
  for_each body (pre ++ bad :: post)%list
  = ((pre' ++ bad' :: post)%list, Raise e).
Proof.
  revert pre'. induction pre as [|o rest IH]; intros pre' H Hbad; simpl in *.
  - injection H as <-. by rewrite Hbad.
  - destruct (body o) as [o' [[]|e']] eqn:Eo; [|discriminate H].
    destruct (for_each body rest) as [rest' r] eqn:Er.
    injection H as <- ->. by rewrite (IH rest' eq_refl Hbad).
Qed.

(** *** [setup_installation], outcome by outcome *)

(** The entry of [hass.data] once the client is stored and the loop has
    left the locations [info]. *)
Lemma setup_installation_False cl debug h h' :
  setup_installation cl debug h = (h', Ok false) ->
  exists info,
    for_each (run_on redact_body) (installation_info cl) = (info, Ok ())
    /\ info !! location_idx (params (data h)) = None
    /\ data h' = set_client (Some (Client info))
                   (set_status (Some (PyDict ∅)) (data h))
    /\ platforms h' = platforms h
    /\ on_start h' = on_start h
    /\ exists r, log h' = (log h ++ [r])%list.
Proof.
  unfold setup_installation. intros H.
  apply M_bind_Ok in H as ([] & h1 & H1 & H).
  apply M_bind_Ok in H as ([] & h2 & H2 & H).
  apply M_bind_Ok in H as (d & h3 & H3 & H).
  apply M_bind_Ok in H as (cl' & h4 & H4 & H).
  unfold modify_data in H1. injection H1 as <-.
  rewrite redact_installation_info_run in H2.
  remember (for_each (run_on redact_body) (installation_info cl)) as loop.
  destruct loop as [info r]. cbn [fst snd] in *.
  injection H2 as <- ->.
  unfold get_data in H3. injection H3 as <- <-.
  unfold lift, present in H4.
  cbn [client set_client set_status data] in H4. injection H4 as <- <-.
  cbn [installation_info data params set_client set_status] in H.
  exists info. split; [reflexivity|].
  destruct (info !! location_idx (params (data h))) as [cfg|] eqn:Elook.
  - apply M_bind_Ok in H as ([] & h5 & H5 & H).
    apply M_bind_Ok in H as (cfg' & h6 & H6 & H).
    apply M_bind_Ok in H as ([] & h7 & H7 & H).
    apply M_bind_Ok in H as ([] & h8 & H8 & H).
    discriminate H.
  - apply M_bind_Ok in H as ([] & h5 & H5 & H).
    unfold logger in H5. injection H5 as <-. injection H as <-.
    cbn. eauto 10.
Qed.

Lemma setup_installation_True cl debug h h' :
  setup_installation cl debug h = (h', Ok true) ->
  exists info cfg cfg',
    for_each (run_on redact_body) (installation_info cl) = (info, Ok ())
    /\ info !! location_idx (params (data h)) = Some cfg
    /\ (if debug then assign2 "locationInfo" "postcode" REDACTED cfg = Ok cfg'
        else cfg' = cfg)
    /\ data h' =
         set_config (Some (location_idx (params (data h))))
           (set_client
              (Some (Client (<[location_idx (params (data h)) := cfg']> info)))
              (set_status (Some (PyDict ∅)) (data h)))
    /\ on_start h' = (on_start h ++ [first_update_packet])%list.
Proof.
  unfold setup_installation. intros H.
  apply M_bind_Ok in H as ([] & h1 & H1 & H).
  apply M_bind_Ok in H as ([] & h2 & H2 & H).
  apply M_bind_Ok in H as (d & h3 & H3 & H).
  apply M_bind_Ok in H as (cl' & h4 & H4 & H).
  unfold modify_data in H1. injection H1 as <-.
  rewrite redact_installation_info_run in H2.
  remember (for_each (run_on redact_body) (installation_info cl)) as loop.
  destruct loop as [info r]. cbn [fst snd] in *.
  injection H2 as <- ->.
  unfold get_data in H3. injection H3 as <- <-.
  unfold lift, present in H4.
  cbn [client set_client set_status data] in H4. injection H4 as <- <-.
  cbn [installation_info data params set_client set_status] in H.
  exists info.
  destruct (info !! location_idx (params (data h))) as [cfg|] eqn:Elook.
  - apply M_bind_Ok in H as ([] & h5 & H5 & H).
    apply M_bind_Ok in H as (cfg' & h6 & H6 & H).
    apply M_bind_Ok in H as ([] & h7 & H7 & H).
    apply M_bind_Ok in H as ([] & h8 & H8 & H).
    unfold modify_data in H5. injection H5 as <-.
    assert (Hd7 : data h7 = data h6).
    { pose proof (load_platforms_data cfg' h6) as Hl. by rewrite H7 in Hl. }
    assert (Ho7 : on_start h7 = on_start h6).
    { assert (Hp : preserves on_start (load_platforms cfg'))
        by (unfold load_platforms; preserve).
      specialize (Hp h6). by rewrite H7 in Hp. }
    unfold bus_listen_start in H8. injection H8 as <-.
    injection H as <-. cbn [data on_start]. rewrite Hd7, Ho7.
    exists cfg, cfg'. split; [reflexivity|]. split; [reflexivity|].
    destruct debug.
    + apply debug_dump_Ok in H6 as Hdump. destruct Hdump as (Ha & Hdata).
      assert (Ho6 : preserves on_start (debug_dump (location_idx (params (data h))) cfg))
        by (unfold debug_dump; preserve).
      specialize (Ho6 (Hass
        (set_config (Some (location_idx (params (data h))))
           (set_client (Some (Client info))
              (set_status (Some (PyDict ∅)) (set_client (Some cl) (data h)))))
        (log h) (platforms h) (on_start h))).
      rewrite H6 in Ho6. cbn [fst on_start] in Ho6.
      split; [exact Ha|]. rewrite Hdata, Ho6. split; reflexivity.
    + injection H6 as <- <-. split; [reflexivity|]. cbn.
      rewrite (list_insert_id info _ cfg Elook). split; reflexivity.
  - apply M_bind_Ok in H as ([] & h5 & H5 & H). discriminate H.
Qed.

(** *** The blocks, run forward *)

Lemma assign2_info_keeps_gateway_item k x o o' k' :
  assign2 "locationInfo" k x o = Ok o' ->
  gateway_item o' k' = gateway_item o k'.
Proof.
  intros H. apply assign2_Ok in H as (d & di & -> & Hd & ->).
  unfold gateway_item. by rewrite getitem_insert_ne.
Qed.

Lemma redacted_location_assignable loc k x :
  redacted_location loc -> exists loc', assign2 "locationInfo" k x loc = Ok loc'.
Proof.
  intros (_ & _ & _ & R4 & _). unfold get2 in R4.
  apply bind_Ok in R4 as (inner & Hg & H).
  apply getitem_Ok in Hg as (d & -> & Hd).
  apply getitem_Ok in H as (di & -> & _).
  rewrite (assign2_dict _ _ _ _ _ Hd). eauto.
Qed.

Lemma debug_dump_run loc_idx cfg cfg' h :
  assign2 "locationInfo" "postcode" REDACTED cfg = Ok cfg' ->
  debug_dump loc_idx cfg h =
    (Hass (set_client
             ((fun cl => Client (<[loc_idx := cfg']> (installation_info cl)))
                <$> client (data h)) (data h))
          (log h ++ [LogRecord LDEBUG msg_config [AVal cfg']])
          (platforms h) (on_start h),
     Ok cfg').
Proof.
  intros Ha. pose proof Ha as Hd.
  apply assign2_Ok in Hd as (d & di & -> & _ & _).
  unfold debug_dump, mbind, M_bind, lift, modify_data, logger. cbn [dict_copy].
  rewrite Ha. reflexivity.
Qed.

Lemma load_platforms_run cfg tcs (has_dhw : bool) h :
  tcs_of cfg = Ok tcs -> contains "dhw" tcs = Ok has_dhw ->
  load_platforms cfg h =
    (Hass (data h) (log h)
          (platforms h ++ "climate" :: (if has_dhw then ["water_heater"] else []))
          (on_start h),
     Ok ()).
Proof.
  unfold tcs_of. intros Ht Hc.
  apply bind_Ok in Ht as (gws & Hg & Ht).
  apply bind_Ok in Ht as (gw & Hf & Ht).
  apply bind_Ok in Ht as (tcss & Hs & Ht).
  unfold load_platforms, mbind, M_bind, load_platform, lift.
  rewrite Hg, Hf, Hs, Ht, Hc.
  destruct has_dhw; cbn; [|reflexivity].
  by rewrite <- app_assoc.
Qed.

Lemma setup_installation_runs cl debug h info cfg tcs (has_dhw : bool) :
  for_each (run_on redact_body) (installation_info cl) = (info, Ok ()) ->
  info !! location_idx (params (data h)) = Some cfg ->
  redacted_location cfg ->
  tcs_of cfg = Ok tcs -> contains "dhw" tcs = Ok has_dhw ->
  (setup_installation cl debug h).2 = Ok true
  /\ platforms (setup_installation cl debug h).1
     = (platforms h ++ "climate" :: (if has_dhw then ["water_heater"] else []))%list.
Proof.
  intros Hloop Hcfg Hred Ht Hc. unfold setup_installation.
  rewrite (M_bind_run (modify_data _) _ _ _ _ eq_refl).
  erewrite (M_bind_run (redact_installation_info cl));
    [|by rewrite redact_installation_info_run, Hloop].
  rewrite (M_bind_run get_data _ _ _ _ eq_refl).
  cbn [data client set_client set_status present].
  rewrite (M_bind_run (lift _) _ _ _ _ eq_refl).
  cbn [fst data params client set_client set_status installation_info
       log platforms on_start].
  rewrite Hcfg.
  rewrite (M_bind_run (modify_data _) _ _ _ _ eq_refl).
  destruct debug.
  - destruct (redacted_location_assignable cfg "postcode" REDACTED Hred)
      as [cfg' Ha].
    rewrite (M_bind_run (debug_dump _ _) _ _ _ _ (debug_dump_run _ _ _ _ Ha)).
    assert (Ht' : tcs_of cfg' = Ok tcs).
    { rewrite tcs_of_gateway_item,
        (assign2_info_keeps_gateway_item _ _ _ _ _ Ha), <- tcs_of_gateway_item.
      exact Ht. }
    rewrite (M_bind_run (load_platforms _) _ _ _ _
               (load_platforms_run _ _ _ _ Ht' Hc)).
    split; reflexivity.
  - rewrite (M_bind_run (mret cfg) _ _ _ _ eq_refl).
    rewrite (M_bind_run (load_platforms _) _ _ _ _
               (load_platforms_run _ _ _ _ Ht Hc)).
    split; reflexivity.
Qed.

(** What the loop makes of the location at one index. *)
Lemma for_each_lookup l info i loc :
  for_each (run_on redact_body) l = (info, Ok ()) ->
  l !! i = Some loc ->
  exists kept, info !! i = Some kept
               /\ run_on redact_body loc = (kept, Ok ()).
Proof.
  intros Hloop Hl. apply for_each_Forall2 in Hloop.
  destruct (Forall2_lookup_l _ _ _ _ _ Hloop Hl) as (kept & Hk & Hrun). eauto.
Qed.

(** *** Properties of [setup] *)

(** The way to [return True], in full. *)
Lemma setup_success EvohomeClient debug cfg h cl loc tcs
    (has_dhw : bool) :
  EvohomeClient (username cfg) (password cfg) = Ok cl ->
  Forall (fun loc => has_info_and_gateway loc = true) (installation_info cl) ->
  installation_info cl !! location_idx cfg = Some loc ->
  tcs_of loc = Ok tcs -> contains "dhw" tcs = Ok has_dhw ->
  let h' := host_after (setup EvohomeClient debug cfg) h in
  outcome (setup EvohomeClient debug cfg) h = Ok true
  /\ platforms h'
     = (platforms h ++ "climate" :: (if has_dhw then ["water_heater"] else []))%list
  /\ on_start h' = (on_start h ++ [first_update_packet])%list
  /\ config (data h') = Some (location_idx cfg)
  /\ status (data h') = Some (PyDict ∅)
  /\ timers (data h') = ∅
  /\ exists kept, config_of (data h') = Some kept /\ tcs_of kept = Ok tcs.
Proof.
  intros He Hwf Hloc Ht Hc h'. subst h'. unfold outcome, host_after.
  rewrite (setup_when_accepted _ _ _ _ _ He).
  destruct (for_each_succeeds (run_on redact_body) (installation_info cl))
    as [info Hloop].
  { eapply Forall_impl; [exact Hwf|]. intros o. apply redact_body_succeeds. }
  destruct (for_each_lookup _ _ _ _ Hloop Hloc) as (kept & Hkept & Hrun).
  pose proof (redact_body_Ok _ _ Hrun) as Hred.
  pose proof (same_elsewhere_tcs_of _ _ (redact_body_same_elsewhere _ _ Hrun))
    as Htk. rewrite Ht in Htk.
  set (h1 := entered (redact_credentials cfg) h).
  destruct (setup_installation_runs cl debug h1 info kept tcs has_dhw
              Hloop Hkept Hred Htk Hc) as (Hout & Hplat).
  destruct (setup_installation cl debug h1) as [h2 r] eqn:Erun.
  cbn [fst snd] in *. subst r.
  apply setup_installation_True in Erun
    as (info' & c & c' & Hloop' & Hc0 & Hc' & Hdata & Hstart).
  rewrite Hloop in Hloop'. injection Hloop' as <-.
  cbn [h1 entered data params redact_credentials location_idx] in Hc0, Hdata.
  rewrite Hkept in Hc0. injection Hc0 as <-.
  split; [reflexivity|]. split; [exact Hplat|]. split; [exact Hstart|].
  rewrite Hdata. cbn [config status timers set_config set_client set_status
                      h1 entered data].
  split; [reflexivity|]. split; [reflexivity|]. split; [reflexivity|].
  exists c'. unfold config_of. cbn. split.
  - apply list_lookup_insert_eq. by eapply lookup_lt_Some.
  - destruct debug; [|by subst c'].
    by rewrite tcs_of_gateway_item,
         (assign2_info_keeps_gateway_item _ _ _ _ _ Hc'), <- tcs_of_gateway_item.
Qed.

(** X1. When the client is created, every location has its info and a
    gateway, the configured index names a location, and that location's
    first control system [tcs] can be read and tested for ['dhw'], [setup]
    returns [True]: it has asked for the [climate] platform, then for the
    [water_heater] platform exactly when ['dhw' in tcs], has registered the
    start-up packet, and has left the config at the configured index, an
    empty status and empty timers. *)
Theorem setup_loads_platforms EvohomeClient debug cfg h cl loc tcs
    (has_dhw : bool) :
  EvohomeClient (username cfg) (password cfg) = Ok cl ->
  Forall (fun loc => has_info_and_gateway loc = true) (installation_info cl) ->
  installation_info cl !! location_idx cfg = Some loc ->
  tcs_of loc = Ok tcs -> contains "dhw" tcs = Ok has_dhw ->
  let h' := host_after (setup EvohomeClient debug cfg) h in
  outcome (setup EvohomeClient debug cfg) h = Ok true
  /\ platforms h'
     = (platforms h ++ "climate" :: (if has_dhw then ["water_heater"] else []))%list
  /\ on_start h' = (on_start h ++ [first_update_packet])%list
  /\ config (data h') = Some (location_idx cfg)
  /\ status (data h') = Some (PyDict ∅)
  /\ timers (data h') = ∅
  /\ exists kept, config_of (data h') = Some kept /\ tcs_of kept = Ok tcs.
Proof. apply setup_success. Qed.

Lemma setup_loads_platforms_witness :
  let h' := host_after (setup vendor_two true second_conf) fresh_host in
  outcome (setup vendor_two true second_conf) fresh_host = Ok true
  /\ platforms h' = ["climate"]
  /\ on_start h' = [first_update_packet]
  /\ config (data h') = Some 1%nat.
Proof.
  destruct (setup_loads_platforms vendor_two true second_conf fresh_host
              (Client [a_location; another_location]) another_location
              (obj [("systemId", PyStr "3432523"); ("zones", PyList [])]) false)
    as (H1 & H2 & H3 & H4 & _).
  - reflexivity.
  - repeat constructor.
  - reflexivity.
  - vm_compute. reflexivity.
  - vm_compute. reflexivity.
  - auto.
Defined.

Lemma unless_bind {X A B} (ok : result B -> Prop) (f : hass -> X)
    (m : M A) (k : A -> M B) :
  preserves f m -> (forall a, unless ok f (k a)) -> unless ok f (m ≫= k).
Proof.
  intros Hm Hk h. unfold mbind, M_bind. specialize (Hm h).
  destruct (m h) as [h1 [a|e]]; simpl in *; [|by right].
  destruct (Hk a h1) as [Hok|Hf]; [by left | right; congruence].
Qed.

Lemma unless_preserves {X A} (ok : result A -> Prop) (f : hass -> X) (m : M A) :
  preserves f m -> unless ok f m.
Proof. intros Hm h. by right. Qed.

Lemma setup_installation_listens_only_on_True cl debug :
  unless (fun r => r = Ok true) on_start (setup_installation cl debug).
Proof.
  unfold setup_installation.
  apply unless_bind; [preserve|intros ?].
  apply unless_bind; [unfold redact_installation_info; destruct (for_each _ _); preserve|intros ?].
  apply unless_bind; [preserve|intros d].
  apply unless_bind; [preserve|intros cl'].
  destruct (_ !! _) as [c|]; [|apply unless_preserves; preserve].
  apply unless_bind; [preserve|intros ?].
  apply unless_bind; [destruct debug; unfold debug_dump; preserve|intros ?].
  apply unless_bind; [unfold load_platforms; preserve|intros ?].
  intros h. by left.
Qed.

(** X2. [setup] registers its start-up listener only on the way to
    [return True]: after any other outcome, [False] or an exception, the
    listeners are as they were.  When it returns [False] it has asked for
    no platform and set no config, and has logged exactly one record. *)
Theorem setup_effects_only_on_success EvohomeClient debug cfg h :
  let h' := host_after (setup EvohomeClient debug cfg) h in
  (outcome (setup EvohomeClient debug cfg) h ≠ Ok true ->
     on_start h' = on_start h)
  /\ (outcome (setup EvohomeClient debug cfg) h = Ok false ->
       platforms h' = platforms h /\ config (data h') = None
       /\ exists r, log h' = (log h ++ [r])%list).
Proof.
  cbv zeta. unfold outcome, host_after.
  destruct (EvohomeClient (username cfg) (password cfg)) as [cl|err] eqn:He.
  - rewrite (setup_when_accepted _ _ _ _ _ He). split.
    + intros Hne.
      destruct (setup_installation_listens_only_on_True cl debug
                  (entered (redact_credentials cfg) h)) as [Hok|Hf];
        [contradiction | exact Hf].
    + intros Hf.
      destruct (setup_installation _ _ _) as [h2 r] eqn:Erun.
      cbn [fst snd] in *. subst r.
      apply setup_installation_False in Erun
        as (info & _ & _ & Hd & Hp & _ & Hl).
      rewrite Hd. auto.
  - rewrite (setup_when_refused _ _ _ _ _ He). cbn [fst snd].
    assert (Hx : exists lg,
               except_HTTPError err (entered cfg h)
               = (Hass (data (entered cfg h)) lg (platforms h) (on_start h),
                  (except_HTTPError err (entered cfg h)).2)
               /\ ((except_HTTPError err (entered cfg h)).2 = Ok false ->
                   exists r, lg = (log h ++ [r])%list)).
    { destruct err as [code| | | | | |];
        try (eexists; split; [reflexivity | discriminate]).
      unfold except_HTTPError.
      repeat (destruct (_ =? _);
              [eexists; split; [reflexivity | intros _; eexists; reflexivity]|]).
      eexists; split; [reflexivity | discriminate]. }
    destruct Hx as (lg & Hx & Hlog). rewrite Hx. cbn. auto.
Qed.

Lemma setup_effects_only_on_success_witness :
  on_start (host_after (setup (vendor_fails 500) false a_conf) fresh_host) = []
  /\ platforms (host_after (setup vendor_ok false far_conf) fresh_host) = [].
Proof.
  destruct (setup_effects_only_on_success (vendor_fails 500) false a_conf
              fresh_host) as (H1 & _).
  destruct (setup_effects_only_on_success vendor_ok false far_conf fresh_host)
    as (_ & H2).
  split.
  - apply H1. vm_compute. discriminate.
  - apply H2. vm_compute. reflexivity.
Defined.

(** X3. The client is stored before its locations are redacted, and the
    loop is in no [try].  So when the locations before some location have
    their info and a gateway and that location has not, [setup] raises from
    the loop, and the client it has stored keeps the earlier locations
    redacted and every later location exactly as the vendor sent it; no
    platform is asked for. *)
Theorem setup_stops_at_malformed_location EvohomeClient debug cfg h cl
    pre bad post :
  EvohomeClient (username cfg) (password cfg) = Ok cl ->
  installation_info cl = (pre ++ bad :: post)%list ->
  Forall (fun loc => has_info_and_gateway loc = true) pre ->
  has_info_and_gateway bad = false ->
  let h' := host_after (setup EvohomeClient debug cfg) h in
  exists e pre' bad',
    outcome (setup EvohomeClient debug cfg) h = Raise e
    /\ client (data h') = Some (Client (pre' ++ bad' :: post)%list)
    /\ Forall redacted_location pre'
    /\ length pre' = length pre
    /\ platforms h' = platforms h.
Proof.
  intros He Hinfo Hpre Hbad h'. subst h'. unfold outcome, host_after.
  rewrite (setup_when_accepted _ _ _ _ _ He).
  destruct (for_each_succeeds (run_on redact_body) pre) as [pre' Hloop].
  { eapply Forall_impl; [exact Hpre|]. intros o. apply redact_body_succeeds. }
  destruct (redact_body_fails bad Hbad) as (bad' & e & Hrun).
  pose proof (for_each_app_raise _ _ _ _ _ post _ Hloop Hrun) as Hall.
  rewrite <- Hinfo in Hall.
  exists e, pre', bad'. unfold setup_installation.
  rewrite (M_bind_run (modify_data _) _ _ _ _ eq_refl).
  erewrite (M_bind_raise (redact_installation_info cl));
    [|by rewrite redact_installation_info_run, Hall].
  cbn. split; [reflexivity|]. split; [reflexivity|]. split.
  - eapply for_each_Ok; [|exact Hloop]. intros o o'. apply redact_body_Ok.
  - split; [|reflexivity].
    pose proof (for_each_length (run_on redact_body) pre) as Hl.
    by rewrite Hloop in Hl.
Qed.

Lemma setup_stops_at_malformed_location_witness :
  exists e pre' bad',
    outcome (setup vendor_second_without_gateway false a_conf) fresh_host
      = Raise e
    /\ client (data (host_after (setup vendor_second_without_gateway false a_conf)
                                fresh_host))
       = Some (Client (pre' ++ bad' :: [another_location])%list)
    /\ Forall redacted_location pre'
    /\ length pre' = 1%nat
    /\ platforms (host_after (setup vendor_second_without_gateway false a_conf)
                             fresh_host) = [].
Proof.
  apply (setup_stops_at_malformed_location vendor_second_without_gateway false
           a_conf fresh_host
           (Client [a_location; a_location_without_gateway; another_location])
           [a_location] a_location_without_gateway [another_location]).
  - reflexivity.
  - reflexivity.
  - repeat constructor.
  - reflexivity.
Defined.

(** X4. Apart from the four keys of ['locationInfo'] and the
    ['gatewayInfo'] of the first gateway, a [setup] that returns without
    debug logging retains every location as the vendor sent it: the other
    keys of the location, of its info and of its first gateway, and the
    gateways after the first. *)
Theorem setup_redaction_touches_nothing_else EvohomeClient cfg h cl b :
  EvohomeClient (username cfg) (password cfg) = Ok cl ->
  outcome (setup EvohomeClient false cfg) h = Ok b ->
  exists info,
    client (data (host_after (setup EvohomeClient false cfg) h))
      = Some (Client info)
    /\ Forall2 same_elsewhere (installation_info cl) info.
Proof.
  intros He. unfold outcome, host_after.
  rewrite (setup_when_accepted _ _ _ _ _ He).
  destruct (setup_installation _ _ _) as [h2 r] eqn:Erun.
  cbn [fst snd]. intros ->.
  assert (Hrel : forall info,
             for_each (run_on redact_body) (installation_info cl) = (info, Ok ()) ->
             Forall2 same_elsewhere (installation_info cl) info).
  { intros info Hloop. apply for_each_Forall2 in Hloop.
    eapply Forall2_impl; [exact Hloop|]. intros o o'.
    apply redact_body_same_elsewhere. }
  destruct b.
  - apply setup_installation_True in Erun
      as (info & c & c' & Hloop & Hc & -> & Hd & _).
    rewrite (list_insert_id info _ c Hc) in Hd. rewrite Hd. cbn. eauto.
  - apply setup_installation_False in Erun as (info & Hloop & _ & Hd & _).
    rewrite Hd. cbn. eauto.
Qed.

Lemma setup_redaction_touches_nothing_else_witness :
  exists info,
    client (data (host_after (setup vendor_two false second_conf) fresh_host))
      = Some (Client info)
    /\ Forall2 same_elsewhere [a_location; another_location] info.
Proof.
  apply (setup_redaction_touches_nothing_else vendor_two second_conf fresh_host
           (Client [a_location; another_location]) true).
  - reflexivity.
  - vm_compute. reflexivity.
Defined.

(** X5. Debug logging changes what is retained.  The copy that is logged
    shares its ['locationInfo'] with the config, so after a [setup] that
    returns [True] the config's postcode reads ['REDACTED'] when the logger
    is enabled for debug, and is the vendor's postcode when it is not. *)
Theorem debug_logging_redacts_postcode EvohomeClient debug cfg h cl loc :
  EvohomeClient (username cfg) (password cfg) = Ok cl ->
  installation_info cl !! location_idx cfg = Some loc ->
  outcome (setup EvohomeClient debug cfg) h = Ok true ->
  exists kept,
    config_of (data (host_after (setup EvohomeClient debug cfg) h)) = Some kept
    /\ get2 kept "locationInfo" "postcode"
       = (if debug then Ok REDACTED else get2 loc "locationInfo" "postcode").
Proof.
  intros He Hloc. unfold outcome, host_after.
  rewrite (setup_when_accepted _ _ _ _ _ He).
  destruct (setup_installation _ _ _) as [h2 r] eqn:Erun.
  cbn [fst snd]. intros ->.
  apply setup_installation_True in Erun
    as (info & c & c' & Hloop & Hc & Hc' & Hd & _).
  cbn [entered data params redact_credentials location_idx] in Hc, Hd.
  destruct (for_each_lookup _ _ _ _ Hloop Hloc) as (kept & Hkept & Hrun).
  rewrite Hc in Hkept. injection Hkept as ->.
  exists c'. rewrite Hd. unfold config_of. cbn. split.
  - apply list_lookup_insert_eq. by eapply lookup_lt_Some.
  - destruct debug.
    + by apply assign2_info_effect in Hc' as (Hp & _).
    + subst c'.
      apply redact_body_same_elsewhere in Hrun as (_ & Hi & _).
      apply Hi. apply (bool_decide_unpack _). vm_compute. exact I.
Qed.

Lemma debug_logging_redacts_postcode_witness :
  (exists kept,
     config_of (data (host_after (setup vendor_ok true a_conf) fresh_host))
       = Some kept
     /\ get2 kept "locationInfo" "postcode" = Ok REDACTED)
  /\ (exists kept,
       config_of (data (host_after (setup vendor_ok false a_conf) fresh_host))
         = Some kept
       /\ get2 kept "locationInfo" "postcode" = Ok (PyStr "N1 9GU")).
Proof.
  split.
  - apply (debug_logging_redacts_postcode vendor_ok true a_conf fresh_host
             a_client a_location);
      [reflexivity | reflexivity | vm_compute; reflexivity].
  - apply (debug_logging_redacts_postcode vendor_ok false a_conf fresh_host
             a_client a_location);
      [reflexivity | reflexivity | vm_compute; reflexivity].
Defined.

(** X6. The redaction loop is idempotent: run on the locations it has
    produced, it runs to its end and changes none of them. *)
Theorem redaction_is_idempotent l info :
  for_each (run_on redact_body) l = (info, Ok ()) ->
  for_each (run_on redact_body) info = (info, Ok ()).
Proof.
  intros Hloop.
  assert (Hred : Forall redacted_location info).
  { eapply for_each_Ok; [|exact Hloop]. intros o o'. apply redact_body_Ok. }
  clear Hloop. induction Hred as [|o rest Ho _ IH]; [reflexivity|].
  cbn [for_each]. by rewrite (redact_body_noop o Ho), IH.
Qed.

Lemma redaction_is_idempotent_witness :
  for_each (run_on redact_body)
    (for_each (run_on redact_body) [a_location; another_location]).1
  = ((for_each (run_on redact_body) [a_location; another_location]).1, Ok ()).
Proof.
  apply (redaction_is_idempotent [a_location; another_location]).
  vm_compute. reflexivity.
Defined.

(** X7. On configured intervals of whole seconds from the minimum on, the
    interval that [setup] computes is at least the minimum of 3 minutes,
    grows with the configured one, and is a fixed point: rounding it again
    gives it back. *)
Theorem effective_interval_on_whole_seconds s s' :
  180 <= s -> s <= s' ->
  td_leb SCAN_INTERVAL_MINIMUM (round_scan_interval (td_seconds s)) = true
  /\ td_leb (round_scan_interval (td_seconds s))
            (round_scan_interval (td_seconds s')) = true
  /\ round_scan_interval (round_scan_interval (td_seconds s))
     = round_scan_interval (td_seconds s).
Proof.
  intros Hs Hss.
  destruct (round_scan_interval_whole_seconds s) as (-> & Hb & _).
  destruct (round_scan_interval_whole_seconds s') as (-> & _ & _).
  pose proof (Z.div_le_mono (s + 59) (s' + 59) 60 ltac:(lia) ltac:(lia)) as Hm.
  unfold td_leb, SCAN_INTERVAL_MINIMUM, td_minutes, td_seconds, us_per_second.
  cbn [td_us]. rewrite !Z.leb_le. split; [lia|]. split; [lia|].
  fold us_per_second. fold (td_seconds (60 * ((s + 59) / 60))).
  destruct (round_scan_interval_whole_seconds (60 * ((s + 59) / 60)))
    as (-> & _).
  unfold td_minutes. do 2 f_equal.
  rewrite Z.mul_comm, Z.div_add_l by lia.
  change (59 / 60) with 0. lia.
Qed.

Lemma effective_interval_on_whole_seconds_witness :
  td_leb SCAN_INTERVAL_MINIMUM (round_scan_interval (td_seconds 181)) = true
  /\ td_leb (round_scan_interval (td_seconds 181))
            (round_scan_interval (td_seconds 299)) = true
  /\ round_scan_interval (round_scan_interval (td_seconds 181))
     = round_scan_interval (td_seconds 181).
Proof. apply effective_interval_on_whole_seconds; lia. Defined.

(** X8. An exception of the client's constructor that is not an
    [HTTPError] with status 400, 503 or 429 leaves [setup] as it is.  By
    then the [finally] clause has redacted the stored credentials; nothing
    has been logged, and the entry in [hass.data] holds nothing else. *)
Theorem setup_passes_other_exceptions_on EvohomeClient debug cfg h err :
  EvohomeClient (username cfg) (password cfg) = Raise err ->
  (forall code, err = HTTPError code ->
     code ≠ HTTP_BAD_REQUEST /\ code ≠ HTTP_SERVICE_UNAVAILABLE
     /\ code ≠ HTTP_TOO_MANY_REQUESTS) ->
  setup EvohomeClient debug cfg h
  = (entered (redact_credentials cfg) h, Raise err).
Proof.
  intros He Hcode. rewrite (setup_when_refused _ _ _ _ _ He).
  assert (Hx : except_HTTPError err (entered cfg h)
               = (entered cfg h, Raise err)).
  { destruct err as [code| | | | | |]; try reflexivity.
    destruct (Hcode code eq_refl) as (H1 & H2 & H3).
    unfold except_HTTPError.
    destruct (Z.eqb_spec code HTTP_BAD_REQUEST); [contradiction|].
    destruct (Z.eqb_spec code HTTP_SERVICE_UNAVAILABLE); [contradiction|].
    destruct (Z.eqb_spec code HTTP_TOO_MANY_REQUESTS); [contradiction|].
    reflexivity. }
  rewrite Hx. reflexivity.
Qed.

Lemma setup_passes_other_exceptions_on_witness :
  setup (fun _ _ => Raise (OtherError "ConnectionError")) true a_conf fresh_host
  = (entered (redact_credentials a_conf) fresh_host,
     Raise (OtherError "ConnectionError")).
Proof.
  apply setup_passes_other_exceptions_on; [reflexivity | discriminate].
Defined.

(** How [setup] comes to return [True]. *)
Lemma setup_True_inv EvohomeClient debug cfg h :
  outcome (setup EvohomeClient debug cfg) h = Ok true ->
  exists cl,
    EvohomeClient (username cfg) (password cfg) = Ok cl
    /\ setup_installation cl debug (entered (redact_credentials cfg) h)
       = (host_after (setup EvohomeClient debug cfg) h, Ok true).
Proof.
  unfold outcome, host_after.
  destruct (EvohomeClient (username cfg) (password cfg)) as [cl|err] eqn:He.
  - rewrite (setup_when_accepted _ _ _ _ _ He). intros H. exists cl.
    split; [reflexivity|].
    destruct (setup_installation _ _ _) as [h2 r]. simpl in *. by subst.
  - rewrite (setup_when_refused _ _ _ _ _ He). cbn [snd].
    destruct err as [code| | | | | |]; try discriminate.
    unfold except_HTTPError.
    repeat (destruct (_ =? _); [discriminate|]). discriminate.
Qed.

End SetupFurther.

(* ===================================================================== *)
(** ** More on the devices *)
(* ===================================================================== *)

Module DeviceFurther.
Import Py Evohome WaterHeater WaterHeaterPlatform Vocabulary Samples Frames
  MoreSamples PyFacts DeviceSpec SetupSpec SetupFurther.

(** X9. [_handle_requests_exceptions] never returns: on status 429 it
    raises [NameError] for the unbound [datetime], on any other status it
    raises the error again.  In both cases the entry in [hass.data], timers
    and parameters, is left as it was. *)
Theorem handler_never_returns now self code h :
  let run := _handle_requests_exceptions now self code in
  data (host_after run h) = data h
  /\ (code = HTTP_TOO_MANY_REQUESTS /\ outcome run h = Raise (NameError "datetime")
      \/ code ≠ HTTP_TOO_MANY_REQUESTS /\ outcome run h = Raise (HTTPError code)).
Proof.
  cbv zeta. unfold outcome, host_after.
  destruct (Z.eq_dec code HTTP_TOO_MANY_REQUESTS) as [->|Hne].
  - unfold _handle_requests_exceptions, handle_requests_exceptions_in.
    change (HTTP_TOO_MANY_REQUESTS =? HTTP_TOO_MANY_REQUESTS) with true.
    unfold mbind, M_bind, get_data, logger, lift. cbn [fst snd data log].
    rewrite datetime_is_unbound. cbn [fst snd data]. auto.
  - rewrite (other_status_is_raised_again _ _ _ _ Hne). auto.
Qed.

(** X10. The packet that a [setup] returning [True] has registered for the
    start of the host refreshes every device of the parent class and no
    device of the child class. *)
Theorem start_up_refreshes_parents_only EvohomeClient debug cfg h :
  outcome (setup EvohomeClient debug cfg) h = Ok true ->
  exists pkt,
    on_start (host_after (setup EvohomeClient debug cfg) h)
      = (on_start h ++ [pkt])%list
    /\ forall dev,
         (_type dev = EVO_PARENT -> refreshed dev pkt)
         /\ (_type dev = EVO_CHILD -> _connect dev pkt = []).
Proof.
  intros H. apply setup_True_inv in H as (cl & _ & Hrun).
  apply setup_installation_True in Hrun as (_ & _ & _ & _ & _ & _ & _ & Hs).
  exists first_update_packet. split; [exact Hs|].
  intros dev. unfold refreshed, _connect. split; intros ->; reflexivity.
Qed.

Lemma start_up_refreshes_parents_only_witness :
  exists pkt,
    on_start (host_after (setup vendor_ok false a_conf) fresh_host)
      = ([] ++ [pkt])%list
    /\ forall dev,
         (_type dev = EVO_PARENT -> refreshed dev pkt)
         /\ (_type dev = EVO_CHILD -> _connect dev pkt = []).
Proof.
  apply (start_up_refreshes_parents_only vendor_ok false a_conf fresh_host).
  vm_compute. reflexivity.
Defined.

End DeviceFurther.

(* ===================================================================== *)
(** ** More on the hot-water platform *)
(* ===================================================================== *)

Module WaterHeaterFurther.
Import Py Evohome WaterHeater WaterHeaterPlatform Vocabulary Samples Frames
  MoreSamples PyFacts WaterHeaterSpec SetupSpec SetupFurther.

(** *** The tables *)

Ltac decide_closed :=
  first
    [ split; [intros _; apply (bool_decide_unpack _); vm_compute; exact I
             | reflexivity]
    | split; [discriminate
             | intros Hin; apply (bool_decide_pack _) in Hin;
               vm_compute in Hin; destruct Hin] ].

(** X11. From a vendor mode to the displayed state and back.  Every state
    that a table displays can be commanded, and the mode it commands
    displays as that state again; but the way back gives the mode one
    started from only for Auto, AutoWithEco and HeatingOff (controller) and
    for FollowSchedule and PermanentOverride (zone): AutoWithReset, Away,
    DayOff and Custom come back as Auto, TemporaryOverride as
    PermanentOverride. *)
Theorem vendor_display_vendor_round_trip :
  (forall m d, TCS_STATE_TO_HA !! m = Some d ->
     exists m', HA_STATE_TO_TCS !! d = Some m'
                /\ TCS_STATE_TO_HA !! m' = Some d
                /\ (m' = m <-> m ∈ [EVO_AUTO; EVO_AUTOECO; EVO_HEATOFF]))
  /\ (forall m d, ZONE_STATE_TO_HA !! m = Some d ->
        exists m', HA_STATE_TO_ZONE !! d = Some m'
                   /\ ZONE_STATE_TO_HA !! m' = Some d
                   /\ (m' = m <-> m ∈ [EVO_FOLLOW; EVO_PERMOVER])).
Proof.
  split; intros m d H; apply table_lookup_inv in H.
  - unfold TCS_STATE_TO_HA_items in H.
    repeat (apply elem_of_cons in H as [[= -> ->] | H];
            [eexists; split; [reflexivity|]; split; [reflexivity|];
             decide_closed|]).
    by apply elem_of_nil in H.
  - unfold ZONE_STATE_TO_HA_items in H.
    repeat (apply elem_of_cons in H as [[= -> ->] | H];
            [eexists; split; [reflexivity|]; split; [reflexivity|];
             decide_closed|]).
    by apply elem_of_nil in H.
Qed.

Lemma vendor_display_vendor_round_trip_witness :
  exists m', HA_STATE_TO_TCS !! STATE_AUTO = Some m'
             /\ TCS_STATE_TO_HA !! m' = Some STATE_AUTO
             /\ (m' = EVO_AWAY <-> EVO_AWAY ∈ [EVO_AUTO; EVO_AUTOECO; EVO_HEATOFF]).
Proof.
  destruct vendor_display_vendor_round_trip as (Ht & _).
  apply Ht. vm_compute. reflexivity.
Defined.

(** *** [current_operation] *)

Lemma table_range (items : list (string * string)) k s :
  Forall (fun kv => kv.2 ∈ displayed_states) items ->
  dict_get (list_to_map items) k = Ok (Some s) -> s ∈ displayed_states.
Proof.
  intros Hall H. destruct k; try discriminate H.
  rewrite dict_get_str in H. injection H as H.
  apply table_lookup_inv in H.
  rewrite Forall_forall in Hall. apply (Hall _ H).
Qed.

Lemma tables_display_states :
  Forall (fun kv => kv.2 ∈ displayed_states) TCS_STATE_TO_HA_items
  /\ Forall (fun kv => kv.2 ∈ displayed_states) ZONE_STATE_TO_HA_items.
Proof.
  split; repeat (apply List.Forall_cons;
                 [apply (bool_decide_unpack _); vm_compute; exact I|]);
    apply List.Forall_nil.
Qed.

(** The end of [current_operation]: log the value, return it. *)
Lemma log_and_return self (r : result (option string)) h :
  (forall s, r = Ok (Some s) -> s ∈ displayed_states) ->
  let run : M (option string) :=
    co ← lift r;
    logger LWARNING msg_current_operation [AStr (_id self); arg_of co];;
    mret co in
  data (run h).1 = data h
  /\ platforms (run h).1 = platforms h
  /\ on_start (run h).1 = on_start h
  /\ (forall e, (run h).2 = Raise e -> (run h).1 = h)
  /\ (forall v, (run h).2 = Ok v ->
        log (run h).1
          = (log h ++ [LogRecord LWARNING msg_current_operation
                         [AStr (_id self); arg_of v]])%list
        /\ forall s, v = Some s -> s ∈ displayed_states).
Proof.
  intros Hrange. destruct r as [v|e]; cbn.
  - split; [reflexivity|]. split; [reflexivity|]. split; [reflexivity|].
    split; [discriminate|]. intros v' [= <-]. split; [reflexivity|].
    intros s ->. by apply Hrange.
  - split; [reflexivity|]. split; [reflexivity|]. split; [reflexivity|].
    split; [reflexivity|]. discriminate.
Qed.

(** X12. What [current_operation] does to the host and what it can return.
    It never changes the entry in [hass.data], the platforms or the
    listeners.  When it raises, it has logged nothing; when it returns, it
    has logged one warning, and the value is [None] or one of [auto],
    [eco], [off], [manual]. *)
Theorem current_operation_effect_and_range self h :
  let run := current_operation self in
  data (host_after run h) = data h
  /\ platforms (host_after run h) = platforms h
  /\ on_start (host_after run h) = on_start h
  /\ (forall e, outcome run h = Raise e -> host_after run h = h)
  /\ (forall v, outcome run h = Ok v ->
        log (host_after run h)
          = (log h ++ [LogRecord LWARNING msg_current_operation
                         [AStr (_id self); arg_of v]])%list
        /\ forall s, v = Some s -> s ∈ displayed_states).
Proof.
  cbv zeta. unfold outcome, host_after, current_operation.
  rewrite (M_bind_run get_data _ _ _ _ eq_refl).
  destruct (system_mode_of (data h)) as [sm|e1] eqn:Es.
  2:{ rewrite (M_bind_raise (lift _) _ h h e1) by reflexivity.
      cbn. repeat split; (discriminate || reflexivity). }
  rewrite (M_bind_run (lift _) _ h h sm) by reflexivity.
  destruct (setpoint_mode_of self) as [zm|e2] eqn:Ez.
  2:{ rewrite (M_bind_raise (lift _) _ h h e2) by reflexivity.
      cbn. repeat split; (discriminate || reflexivity). }
  rewrite (M_bind_run (lift _) _ h h zm) by reflexivity.
  destruct tables_display_states as (Ht & Hz).
  destruct (is_str EVO_FOLLOW zm); [destruct (is_str EVO_RESET sm)|];
    apply log_and_return; intros s Hs.
  - exact (table_range _ _ _ Ht Hs).
  - exact (table_range _ _ _ Ht Hs).
  - exact (table_range _ _ _ Hz Hs).
Qed.

(** X13. The controller's mode matters only to a device that follows the
    schedule: when the device's own mode is anything else, two hosts whose
    system modes can be read, whatever they are, give the same displayed
    operation. *)
Theorem controller_mode_matters_only_when_following self h1 h2 sm1 sm2 zm :
  system_mode_of (data h1) = Ok sm1 ->
  system_mode_of (data h2) = Ok sm2 ->
  setpoint_mode_of self = Ok zm ->
  zm ≠ PyStr EVO_FOLLOW ->
  outcome (current_operation self) h1 = outcome (current_operation self) h2.
Proof.
  intros H1 H2 Hz Hne.
  rewrite (current_operation_unfold _ _ _ _ H1 Hz).
  rewrite (current_operation_unfold _ _ _ _ H2 Hz).
  destruct (is_str EVO_FOLLOW zm) eqn:E; [|reflexivity].
  apply is_str_true in E. contradiction.
Qed.

Lemma controller_mode_matters_only_when_following_witness :
  outcome (current_operation (dhw_in_mode EVO_TEMPOVER)) (host_in_mode EVO_AWAY)
  = outcome (current_operation (dhw_in_mode EVO_TEMPOVER)) (host_in_mode "Boost").
Proof.
  apply (controller_mode_matters_only_when_following _ _ _
           (PyStr EVO_AWAY) (PyStr "Boost") (PyStr EVO_TEMPOVER));
    [vm_compute; reflexivity | vm_compute; reflexivity
    | vm_compute; reflexivity | discriminate].
Defined.

(** X14. A device that follows the schedule displays, for each of the seven
    controller modes, a state of the controller's operation list.  When its
    own operation list is the zones' one, as the hot-water device's is, the
    state it displays is in that list except under AutoWithEco and
    HeatingOff, where it displays [eco] and [off]. *)
Theorem following_device_displays_controller_state self h sm :
  system_mode_of (data h) = Ok (PyStr sm) ->
  setpoint_mode_of self = Ok (PyStr EVO_FOLLOW) ->
  sm ∈ controller_modes ->
  operation_list self = ZONE_OP_LIST ->
  exists d,
    outcome (current_operation self) h = Ok (Some d)
    /\ d ∈ TCS_OP_LIST
    /\ (d ∈ operation_list self <-> sm ≠ EVO_AUTOECO /\ sm ≠ EVO_HEATOFF).
Proof.
  intros Hs Hz Hin ->.
  rewrite (current_operation_unfold _ _ _ _ Hs Hz).
  unfold controller_modes in Hin.
  repeat (apply elem_of_cons in Hin as [-> | Hin];
          [eexists; split; [reflexivity|]; split;
           [apply (bool_decide_unpack _); vm_compute; exact I|];
           first
             [ split; [intros _; split; discriminate
                      | intros _; apply (bool_decide_unpack _); vm_compute; exact I]
             | split; [intros Hd; apply (bool_decide_pack _) in Hd;
                       vm_compute in Hd; destruct Hd
                      | intros [H1 H2]; congruence] ]|]).
  by apply elem_of_nil in Hin.
Qed.

Lemma following_device_displays_controller_state_witness :
  exists d,
    outcome (current_operation (dhw_in_mode EVO_FOLLOW)) (host_in_mode EVO_AUTOECO)
      = Ok (Some d)
    /\ d ∈ TCS_OP_LIST
    /\ (d ∈ operation_list (dhw_in_mode EVO_FOLLOW)
        <-> EVO_AUTOECO ≠ EVO_AUTOECO /\ EVO_AUTOECO ≠ EVO_HEATOFF).
Proof.
  apply following_device_displays_controller_state.
  - vm_compute. reflexivity.
  - vm_compute. reflexivity.
  - apply (bool_decide_unpack _). vm_compute. exact I.
  - reflexivity.
Defined.

(** *** [update] *)

Lemma update_run self h st slice :
  status (data h) = Some st -> getitem st "dhw" = Ok slice ->
  update self h =
    (h, Ok (Device (_id self) (_name self) (_icon self) (_type self) slice true
                   (_operation_list self) (_supported_features self))).
Proof.
  intros Hst Hd. unfold update, mbind, M_bind, get_data, lift.
  rewrite Hst. cbn [present]. rewrite Hd. reflexivity.
Qed.

(** X15. [update] followed by the properties.  When the shared status has a
    hot-water slice, [update] makes the device available and changes
    nothing in the host; [current_operation], [state] and [temperature] of
    the updated device then read that slice: the operation is decided by
    the slice's mode and the shared system mode, the state and the
    temperature are the slice's. *)
Theorem update_then_read self h st slice sm zm :
  status (data h) = Some st ->
  getitem st "dhw" = Ok slice ->
  get2 st "systemModeStatus" "mode" = Ok sm ->
  get2 slice "stateStatus" "mode" = Ok zm ->
  host_after (update self) h = h
  /\ (exists self', outcome (update self) h = Ok self'
                    /\ available self' = true /\ _status self' = slice
                    /\ _type self' = _type self)
  /\ outcome (self' ← update self; current_operation self') h
     = (if is_str EVO_FOLLOW zm then
          if is_str EVO_RESET sm then dict_get TCS_STATE_TO_HA (PyStr EVO_AUTO)
          else dict_get TCS_STATE_TO_HA sm
        else dict_get ZONE_STATE_TO_HA zm)
  /\ (forall v, get2 slice "stateStatus" "state" = Ok v ->
        outcome (self' ← update self; state self') h = Ok v)
  /\ (forall t, get2 slice "temperatureStatus" "temperature" = Ok t ->
        outcome (self' ← update self; temperature self') h = Ok t).
Proof.
  intros Hst Hd Hsm Hzm. unfold outcome, host_after.
  rewrite !(M_bind_run (update self) _ _ _ _ (update_run _ _ _ _ Hst Hd)).
  rewrite (update_run _ _ _ _ Hst Hd). cbn [fst snd].
  split; [reflexivity|]. split; [eexists; repeat split|]. split; [|split].
  - apply current_operation_unfold.
    + unfold system_mode_of. rewrite Hst. exact Hsm.
    + exact Hzm.
  - intros v Hv. unfold get2 in Hv.
    apply bind_Ok in Hv as (ss & Hss & Hv).
    unfold state, mbind, M_bind, lift, logger. cbn [_status fst snd].
    by rewrite Hss, Hv.
  - intros t Ht. unfold get2 in Ht.
    apply bind_Ok in Ht as (ts & Hts & Ht).
    unfold temperature, mbind, M_bind, lift, logger. cbn [_status fst snd].
    by rewrite Hts, Ht.
Qed.

Lemma update_then_read_witness :
  outcome (self' ← update (EvoDHW "3933910"); current_operation self')
          (host_with_status EVO_AWAY EVO_FOLLOW)
    = Ok (Some STATE_AUTO)
  /\ outcome (self' ← update (EvoDHW "3933910"); state self')
             (host_with_status EVO_AWAY EVO_FOLLOW)
    = Ok (PyStr "On").
Proof.
  destruct (update_then_read (EvoDHW "3933910")
              (host_with_status EVO_AWAY EVO_FOLLOW)
              (a_status EVO_AWAY EVO_FOLLOW)
              (obj [ ("dhwId", PyStr "3933910");
                     ("stateStatus",
                       obj [("mode", PyStr EVO_FOLLOW); ("state", PyStr "On")]);
                     ("temperatureStatus",
                       obj [("temperature", PyFloat 51.5);
                            ("isAvailable", PyBool true)]) ])
              (PyStr EVO_AWAY) (PyStr EVO_FOLLOW))
    as (_ & _ & Hop & Hstate & _);
    try (vm_compute; reflexivity).
  split.
  - rewrite Hop. reflexivity.
  - apply Hstate. vm_compute. reflexivity.
Defined.

(** X16. Until something fills [evo_data['status']].  A [setup] that
    returns [True] leaves the status empty, and nothing in these two files
    fills it.  In that host [update] raises [KeyError('dhw')] and
    [current_operation] raises [KeyError('systemModeStatus')], for every
    device, and neither changes the host or logs anything. *)
Theorem nothing_to_read_after_setup EvohomeClient debug cfg h self :
  outcome (setup EvohomeClient debug cfg) h = Ok true ->
  let h' := host_after (setup EvohomeClient debug cfg) h in
  update self h' = (h', Raise (KeyError (KStr "dhw")))
  /\ current_operation self h'
     = (h', Raise (KeyError (KStr "systemModeStatus"))).
Proof.
  intros H h'. apply setup_True_inv in H as (cl & _ & Hrun).
  apply setup_installation_True in Hrun as (info & c & c' & _ & _ & _ & Hd & _).
  fold h' in Hd.
  assert (Hst : status (data h') = Some (PyDict ∅)) by (by rewrite Hd).
  split.
  - unfold update, mbind, M_bind, get_data, lift. by rewrite Hst.
  - unfold current_operation, mbind, M_bind, get_data, lift, system_mode_of.
    by rewrite Hst.
Qed.

Lemma nothing_to_read_after_setup_witness :
  update (EvoDHW "3933910") host_after_setup
    = (host_after_setup, Raise (KeyError (KStr "dhw")))
  /\ current_operation (EvoDHW "3933910") host_after_setup
     = (host_after_setup, Raise (KeyError (KStr "systemModeStatus"))).
Proof.
  apply (nothing_to_read_after_setup vendor_ok false a_conf fresh_host).
  vm_compute. reflexivity.
Defined.

(** *** [async_setup_platform] and [EvoDHW.__init__] *)

Lemma EvoDHW_init_run hw h tcs :
  config_tcs_of (data h) = Ok tcs ->
  EvoDHW_init hw h =
    (h, c ← getitem tcs "dhw"; mret (DhwEntity (EvoDHW (zoneId hw)) c)).
Proof.
  intros Ht. unfold EvoDHW_init, mbind at 1 2 3, M_bind, get_data, lift.
  rewrite Ht. by destruct (getitem tcs "dhw").
Qed.

(** X17. [async_setup_platform] where there is nothing to add.  When the
    configured index is beyond the client's locations it raises
    [IndexError] and has done nothing.  When the controller it reaches has
    no hot water, the local [dhw] is never bound and [entities = [dhw]]
    raises [UnboundLocalError], a [NameError]; the entry in [hass.data] is
    as it was. *)
Theorem platform_setup_without_hot_water locations h cl :
  client (data h) = Some cl ->
  (locations cl !! location_idx (params (data h)) = None ->
     async_setup_platform locations h = (h, Raise IndexError))
  /\ (forall loc gw gws tcs tcss,
        locations cl !! location_idx (params (data h)) = Some loc ->
        _gateways loc = gw :: gws ->
        _control_systems gw = tcs :: tcss ->
        hotwater tcs = None ->
        outcome (async_setup_platform locations) h = Raise (NameError "dhw")
        /\ data (host_after (async_setup_platform locations) h) = data h).
Proof.
  intros Hcl. split.
  - intros Hloc. unfold async_setup_platform, mbind, M_bind, get_data, lift.
    rewrite Hcl. cbn [present]. unfold item. by rewrite Hloc.
  - intros loc gw gws tcs tcss Hloc Hgw Htcs Hhw.
    unfold outcome, host_after, async_setup_platform, mbind, M_bind, get_data,
      lift, logger.
    rewrite Hcl. cbn [present]. unfold item. rewrite Hloc, Hgw. cbn.
    rewrite Htcs. cbn. rewrite Hhw. cbn. auto.
Qed.

Lemma platform_setup_without_hot_water_witness :
  outcome (async_setup_platform (tree_with None)) host_after_setup
    = Raise (NameError "dhw")
  /\ data (host_after (async_setup_platform (tree_with None)) host_after_setup)
     = data host_after_setup.
Proof.
  destruct (platform_setup_without_hot_water (tree_with None) host_after_setup
              (Client (for_each (run_on redact_body) [a_location]).1))
    as (_ & H).
  - vm_compute. reflexivity.
  - eapply H; reflexivity.
Defined.

(** X18. [async_setup_platform] where the controller has hot water and the
    config kept by [setup] has a ['dhw'] entry: it adds exactly one entity,
    without an update before adding.  The entity is of the child class, so
    the host does not poll it; it is not yet available, its status is
    empty, its operation list is the zones' one and its config is that
    entry.  The entry in [hass.data] is as it was. *)
Theorem platform_setup_adds_one_child_entity locations h cl loc gw gws tcs tcss
    hw json_tcs c :
  client (data h) = Some cl ->
  locations cl !! location_idx (params (data h)) = Some loc ->
  _gateways loc = gw :: gws ->
  _control_systems gw = tcs :: tcss ->
  hotwater tcs = Some hw ->
  config_tcs_of (data h) = Ok json_tcs ->
  getitem json_tcs "dhw" = Ok c ->
  exists dhw,
    outcome (async_setup_platform locations) h = Ok ([dhw], false)
    /\ data (host_after (async_setup_platform locations) h) = data h
    /\ _config dhw = c
    /\ _id (entity dhw) = zoneId hw
    /\ _type (entity dhw) = EVO_CHILD
    /\ should_poll (entity dhw) = false
    /\ available (entity dhw) = false
    /\ _status (entity dhw) = PyDict ∅
    /\ operation_list (entity dhw) = [STATE_AUTO; STATE_MANUAL].
Proof.
  intros Hcl Hloc Hgw Htcs Hhw Hcfg Hc.
  exists (DhwEntity (EvoDHW (zoneId hw)) c).
  assert (Hrun : exists lg,
    async_setup_platform locations h
    = (Hass (data h) lg (platforms h) (on_start h),
       Ok ([DhwEntity (EvoDHW (zoneId hw)) c], false))).
  { unfold async_setup_platform.
    rewrite (M_bind_run get_data _ _ _ _ eq_refl).
    rewrite Hcl. cbn [present].
    rewrite (M_bind_run (lift _) _ h h cl) by reflexivity.
    unfold item. rewrite Hloc.
    rewrite (M_bind_run (lift _) _ h h loc) by reflexivity.
    rewrite Hgw. cbn [lookup list_lookup].
    rewrite (M_bind_run (lift _) _ h h gw) by reflexivity.
    rewrite Htcs. cbn [lookup list_lookup].
    rewrite (M_bind_run (lift _) _ h h tcs) by reflexivity.
    rewrite (M_bind_run (logger _ _ _) _ _ _ _ eq_refl).
    rewrite Hhw.
    erewrite (M_bind_run (logger _ _ _ ≫= _));
      [|rewrite (M_bind_run (logger _ _ _) _ _ _ _ eq_refl);
        erewrite (M_bind_run (EvoDHW_init hw));
          [reflexivity|rewrite (EvoDHW_init_run hw _ json_tcs) by exact Hcfg;
                       rewrite Hc; reflexivity]].
    cbv beta iota.
    rewrite (M_bind_run (lift _) _ _ _ _ eq_refl).
    eexists. reflexivity. }
  destruct Hrun as (lg & Hrun). unfold outcome, host_after. rewrite Hrun.
  cbn. repeat split.
Qed.

Lemma platform_setup_adds_one_child_entity_witness :
  exists dhw,
    outcome (async_setup_platform (tree_with (Some a_hot_water))) host_after_setup
      = Ok ([dhw], false)
    /\ data (host_after (async_setup_platform (tree_with (Some a_hot_water)))
                        host_after_setup) = data host_after_setup
    /\ _config dhw = obj [("dhwId", PyStr "3933910")]
    /\ _id (entity dhw) = zoneId a_hot_water
    /\ _type (entity dhw) = EVO_CHILD
    /\ should_poll (entity dhw) = false
    /\ available (entity dhw) = false
    /\ _status (entity dhw) = PyDict ∅
    /\ operation_list (entity dhw) = [STATE_AUTO; STATE_MANUAL].
Proof.
  eapply (platform_setup_adds_one_child_entity (tree_with (Some a_hot_water))
            host_after_setup);
    try reflexivity; vm_compute; reflexivity.
Defined.

(** X19. [setup] and the entity's constructor agree on ['dhw'].  After a
    [setup] that returns [True] on a location whose first control system is
    an object, [EvoDHW.__init__] can read its config exactly when [setup]
    has asked for the [water_heater] platform: with a ['dhw'] entry the
    platform is loaded and the constructor returns the entity holding that
    entry, without one the platform is not loaded and the constructor
    raises [KeyError('dhw')]. *)
Theorem platform_loaded_iff_entity_constructible EvohomeClient debug cfg h cl
    loc t hw :
  EvohomeClient (username cfg) (password cfg) = Ok cl ->
  Forall (fun loc => has_info_and_gateway loc = true) (installation_info cl) ->
  installation_info cl !! location_idx cfg = Some loc ->
  tcs_of loc = Ok (PyDict t) ->
  let h' := host_after (setup EvohomeClient debug cfg) h in
  match t !! "dhw" with
  | Some c =>
      platforms h' = (platforms h ++ ["climate"; "water_heater"])%list
      /\ outcome (EvoDHW_init hw) h' = Ok (DhwEntity (EvoDHW (zoneId hw)) c)
  | None =>
      platforms h' = (platforms h ++ ["climate"])%list
      /\ outcome (EvoDHW_init hw) h' = Raise (KeyError (KStr "dhw"))
  end.
Proof.
  intros He Hwf Hloc Ht h'.
  destruct (setup_success EvohomeClient debug cfg h cl loc (PyDict t)
              (bool_decide (is_Some (t !! "dhw"))) He Hwf Hloc Ht eq_refl)
    as (_ & Hp & _ & _ & _ & _ & kept & Hk & Htk).
  fold h' in Hp, Hk.
  assert (Hcfg : config_tcs_of (data h') = Ok (PyDict t)).
  { unfold config_tcs_of. rewrite Hk. exact Htk. }
  unfold outcome. rewrite (EvoDHW_init_run hw h' _ Hcfg). cbn [snd getitem].
  destruct (t !! "dhw") as [c|] eqn:Ed.
  - rewrite bool_decide_eq_true_2 in Hp by eauto. split; [exact Hp|reflexivity].
  - rewrite bool_decide_eq_false_2 in Hp by (intros [x Hx]; discriminate Hx).
    split; [exact Hp|reflexivity].
Qed.

Lemma platform_loaded_iff_entity_constructible_witness :
  platforms (host_after (setup vendor_two false second_conf) fresh_host)
    = ["climate"]
  /\ outcome (EvoDHW_init a_hot_water)
             (host_after (setup vendor_two false second_conf) fresh_host)
     = Raise (KeyError (KStr "dhw")).
Proof.
  assert (Hwf : Forall (fun loc => has_info_and_gateway loc = true)
                  [a_location; another_location]) by repeat constructor.
  assert (Ht : tcs_of another_location
               = Ok (PyDict (list_to_map [("systemId", PyStr "3432523");
                                          ("zones", PyList [])])))
    by (vm_compute; reflexivity).
  exact (platform_loaded_iff_entity_constructible vendor_two false second_conf
           fresh_host (Client [a_location; another_location]) another_location
           (list_to_map [("systemId", PyStr "3432523"); ("zones", PyList [])])
           a_hot_water eq_refl Hwf eq_refl Ht).
Defined.

End WaterHeaterFurther.
